(** * KinoMailParser: a shallow embedding of [23_2_1.py]

    The script collects the top films of kino.mail.ru: it fetches the
    listing page by page, turns every film card into a [Film] record and
    stops when the requested count is reached or the pages run out.

    Python [str] values are modelled as [string] holding the UTF-8 bytes of
    the text; [int] as [Z]; [Optional] as [option]; a raised [Exception] as
    the [Exc] branch of [py]. The two libraries the script drives
    ([requests] and [BeautifulSoup]) are the environment: a card is the
    pair of its CSS query functions, a site is the pair of its HTTP answer
    and its HTML reading.

    A [str] may hold a lone surrogate (a code point U+D800..U+DFFF), which
    UTF-8 refuses; here it is the three bytes ED A0..BF 80..BF that the
    general scheme gives it, so that such a text has a model and the
    encoder can be seen to refuse it. *)

From stdpp Require Import gmap strings list pretty.
From Stdlib Require Import ZArith Ascii Lia.

Local Open Scope Z_scope.

(** ** Python strings *)

Module PyStr.

(** [len(s) == 0], i.e. [not s] on a [str]. *)
Definition is_empty (s : string) : bool :=
  match s with EmptyString => true | String _ _ => false end.

(** Code points that [str.isspace] accepts and that take one byte in
    UTF-8: U+0009..U+000D, U+001C..U+001F and U+0020. *)
Definition is_space1 (a : ascii) : bool :=
  let n := nat_of_ascii a in
  ((9 <=? n) && (n <=? 13) || (28 <=? n) && (n <=? 32))%nat.

(** Two bytes: U+0085 (C2 85) and U+00A0 (C2 A0). *)
Definition is_space2 (a b : ascii) : bool :=
  let m := nat_of_ascii a in
  let n := nat_of_ascii b in
  ((m =? 194) && ((n =? 133) || (n =? 160)))%nat.

(** Three bytes: U+1680 (E1 9A 80), U+2000..U+200A (E2 80 80..8A),
    U+2028, U+2029, U+202F (E2 80 A8, A9, AF), U+205F (E2 81 9F) and
    U+3000 (E3 80 80). *)
Definition is_space3 (a b c : ascii) : bool :=
  let l := nat_of_ascii a in
  let m := nat_of_ascii b in
  let n := nat_of_ascii c in
  ((l =? 225) && (m =? 154) && (n =? 128)
   || (l =? 226) && (m =? 128)
      && ((128 <=? n) && (n <=? 138) || (n =? 168) || (n =? 169) || (n =? 175))
   || (l =? 226) && (m =? 129) && (n =? 159)
   || (l =? 227) && (m =? 128) && (n =? 128))%nat.

(** [s.lstrip()]: drop leading white space, one encoded character at a
    time. *)
Fixpoint lstrip (s : string) : string :=
  match s with
  | EmptyString => s
  | String a s1 =>
      if is_space1 a then lstrip s1
      else match s1 with
           | EmptyString => s
           | String b s2 =>
               if is_space2 a b then lstrip s2
               else match s2 with
                    | EmptyString => s
                    | String c s3 => if is_space3 a b c then lstrip s3 else s
                    end
           end
  end.

(** The same scan over the reversed bytes, for the trailing side. *)
Fixpoint lstrip_rev (s : list ascii) : list ascii :=
  match s with
  | [] => s
  | a :: s1 =>
      if is_space1 a then lstrip_rev s1
      else match s1 with
           | [] => s
           | b :: s2 =>
               if is_space2 b a then lstrip_rev s2
               else match s2 with
                    | [] => s
                    | c :: s3 => if is_space3 c b a then lstrip_rev s3 else s
                    end
           end
  end.

Definition rstrip (s : string) : string :=
  String.string_of_list_ascii (rev (lstrip_rev (rev (String.list_ascii_of_string s)))).

(** [s.strip()]. *)
Definition strip (s : string) : string := rstrip (lstrip s).

(** [sep.join(parts)]. *)
Fixpoint join (sep : string) (parts : list string) : string :=
  match parts with
  | [] => ""
  | [p] => p
  | p :: rest => p +:+ sep +:+ join sep rest
  end.

(** [s.startswith(p)]. *)
Definition startswith (s p : string) : bool := String.prefix p s.

End PyStr.

(** ** Exceptions *)

(** The result of a Python expression that may raise: a value, or the name
    of the exception. *)
Inductive py (A : Type) : Type :=
| Ok (a : A)
| Exc (e : string).
Arguments Ok {A} a.
Arguments Exc {A} e.

#[global] Instance py_ret : MRet py := fun A a => Ok a.

#[global] Instance py_bind : MBind py := fun A B k m =>
  match m with
  | Ok a => k a
  | Exc e => Exc e
  end.

(** The classes an [except] clause of the script names. An exception is
    known by the name of its class; the clause catches the class and the
    classes derived from it. *)

(** [except requests.exceptions.RequestException]: the exceptions of
    [requests.exceptions]. *)
Definition is_RequestException (e : string) : bool :=
  bool_decide
    (e ∈ ["RequestException"; "InvalidJSONError"; "JSONDecodeError"; "HTTPError";
          "ConnectionError"; "ProxyError"; "SSLError"; "Timeout";
          "ConnectTimeout"; "ReadTimeout"; "URLRequired"; "TooManyRedirects";
          "MissingSchema"; "InvalidSchema"; "InvalidURL"; "InvalidHeader";
          "InvalidProxyURL"; "ChunkedEncodingError"; "ContentDecodingError";
          "StreamConsumedError"; "RetryError"; "UnrewindableBodyError"]).

(** [except ValueError]: the built-in [ValueError] and the built-in
    classes derived from it. *)
Definition is_ValueError (e : string) : bool :=
  bool_decide
    (e ∈ ["ValueError"; "UnicodeError"; "UnicodeDecodeError";
          "UnicodeEncodeError"; "UnicodeTranslateError"]).

(** [l[i]] raises [IndexError] out of range. *)
Definition py_index {A} (l : list A) (i : nat) : py A :=
  match l !! i with
  | Some x => Ok x
  | None => Exc "IndexError"
  end.

(** [d[k]] on a [dict] raises [KeyError] on a missing key. *)
Definition py_getitem (d : gmap string string) (k : string) : py string :=
  match d !! k with
  | Some v => Ok v
  | None => Exc "KeyError"
  end.

(** ** The document interface of BeautifulSoup *)

(** An element as the script reads it: its [.text] and its [.attrs]. *)
Record Tag := mkTag {
  text : string;
  attrs : gmap string string
}.

(** A film card: the answers of [card.select_one(sel)] and
    [card.select(sel)] for every selector; a query may raise. *)
Record Card := mkCard {
  select_one : string -> py (option Tag);
  select : string -> py (list Tag)
}.

(** ** The record *)

Record Film := mkFilm {
  title : string;
  original_title : string;
  year : string;
  rating : string;
  genres : string;
  country : string;
  url : string;
  director : string
}.

(** The dataclass constructor: [director] defaults to the empty string. *)
Definition Film_init (title original_title year rating genres country url : string) : Film :=
  mkFilm title original_title year rating genres country url "".

(** ** KinoMailParser *)

Definition base_url : string := "https://kino.mail.ru".
Definition top_url : string := base_url +:+ "/cinema/top/".

Definition title_selector : string := "span.link__text".
Definition original_title_selector : string := "span.text_light_small.color_gray".
Definition details_selector : string := "div.margin_top_5 a".
Definition rating_selector : string := "span.p-rate-flag__text".
Definition url_selector : string := "a.link-holder_itemevent_small".
Definition card_selector : string := "div.p-itemevent-small".

(** The rating shown when the card carries none. *)
Definition rating_missing : string := "Н/Д".

(** The body of the [try] block of [_parse_film_card]. *)
Definition _parse_film_card_try (card : Card) : py (option Film) :=
  title_elem ← select_one card title_selector;
  match title_elem with
  | None => Ok None
  | Some title_elem =>
      let title := PyStr.strip (text title_elem) in
      original_title_elem ← select_one card original_title_selector;
      let original_title :=
        match original_title_elem with
        | Some e => PyStr.strip (text e)
        | None => ""
        end in
      details ← select card details_selector;
      country ← (if (0 <? length details)%nat
                 then d ← py_index details 0; Ok (PyStr.strip (text d))
                 else Ok "");
      year ← (if (1 <? length details)%nat
              then d ← py_index details 1; Ok (PyStr.strip (text d))
              else Ok "");
      let genres :=
        if (2 <? length details)%nat
        then PyStr.join ", " (map (fun g => PyStr.strip (text g)) (drop 2 details))
        else "" in
      rating_elem ← select_one card rating_selector;
      let rating :=
        match rating_elem with
        | Some e => PyStr.strip (text e)
        | None => rating_missing
        end in
      url_elem ← select_one card url_selector;
      match url_elem with
      | None => Ok None
      | Some url_elem =>
          if bool_decide (attrs url_elem !! "href" = None) then Ok None
          else
            href ← py_getitem (attrs url_elem) "href";
            let url := base_url +:+ href in
            Ok (Some (Film_init title original_title year rating genres country url))
      end
  end.

(** [_parse_film_card]: the [except Exception] clause turns every raise
    into "no film". *)
Definition _parse_film_card (card : Card) : option Film :=
  match _parse_film_card_try card with
  | Ok r => r
  | Exc _ => None
  end.

(** ** The environment: HTTP and HTML *)

(** What [requests.get] hands back: the status code and the body decoded
    as UTF-8 ([response.text] after [response.encoding = 'utf-8']). *)
Record Response := mkResponse {
  status_code : Z;
  response_text : string
}.

(** [response.raise_for_status()] raises [HTTPError] on 4xx and 5xx. *)
Definition raise_for_status (response : Response) : py unit :=
  if bool_decide (400 ≤ status_code response < 600)
  then Exc "HTTPError"
  else Ok ().

(** The parsed document: [soup.select(sel)]. *)
Record Soup := mkSoup {
  soup_select : string -> list Card
}.

(** What a call of [get_top_films] ends with. *)
Inductive outcome : Type :=
| Returned (films : list Film)
| Raised (exc : string) (msg : string).

Section KinoMailParser.

(** [requests.get(url, ...)]: a response, or the exception it raises (a
    [RequestException] such as a connection error or a timeout, or any
    other). One run asks for every URL at most once, so the site is a
    function of the URL. *)
Variable requests_get : string -> py Response.

(** [BeautifulSoup(html, features)]: the document, or the exception it
    raises ([FeatureNotFound] when the parser is not installed). *)
Variable BeautifulSoup : string -> string -> py Soup.

(** [_get_page]: the request goes out (it is appended to the list [net]
    of URLs requested so far); a [RequestException] becomes [None], any
    other exception goes on to the caller. *)
Definition _get_page (url : string) (net : list string)
  : py (option string) * list string :=
  let net := net ++ [url] in
  match response ← requests_get url;
        _ ← raise_for_status response;
        Ok (response_text response) with
  | Ok html => (Ok (Some html), net)
  | Exc e => if is_RequestException e then (Ok None, net) else (Exc e, net)
  end.

(** The URL of a page: [f"{self.top_url}?page={page}" if page > 1 else
    self.top_url]. *)
Definition page_url (page : nat) : string :=
  if bool_decide (1 < page)%nat
  then top_url +:+ "?page=" +:+ pretty page
  else top_url.

(** The [for card in cards] loop, with its [break]. *)
Fixpoint for_cards (count : Z) (cards : list Card) (films : list Film)
  : list Film :=
  match cards with
  | [] => films
  | card :: cards =>
      match _parse_film_card card with
      | Some film =>
          let films := films ++ [film] in
          if bool_decide (Z.of_nat (length films) >= count) then films
          else for_cards count cards films
      | None => for_cards count cards films
      end
  end.

(** The [while len(films) < count] loop: the records it ends with, or the
    exception that leaves it. Python gives it no bound; [fuel] bounds the
    number of iterations and [None] means the bound was hit with the loop
    still running. *)
Fixpoint while_loop (fuel : nat) (count : Z) (films : list Film)
    (page : nat) (net : list string)
  : option (py (list Film) * list string) :=
  if bool_decide (Z.of_nat (length films) < count) then
    match fuel with
    | O => None
    | S fuel =>
        let url := page_url page in
        let '(html, net) := _get_page url net in
        match html with
        | Exc e => Some (Exc e, net)
        | Ok None => Some (Ok films, net)
        | Ok (Some html) =>
            if PyStr.is_empty html then Some (Ok films, net)
            else
              match BeautifulSoup html "lxml" with
              | Exc e => Some (Exc e, net)
              | Ok soup =>
                  let cards := soup_select soup card_selector in
                  match cards with
                  | [] => Some (Ok films, net)
                  | _ :: _ =>
                      let films := for_cards count cards films in
                      while_loop fuel count films (S page) net
                  end
              end
        end
    end
  else Some (Ok films, net).

(** [get_top_films(count)]: the outcome and the URLs requested, in
    order. An exception that leaves the loop leaves the method. *)
Definition get_top_films (fuel : nat) (count : Z)
  : option (outcome * list string) :=
  if bool_decide (count < 1 ∨ count > 150)
  then Some (Raised "ValueError" "Можно собрать от 1 до 150 фильмов", [])
  else
    match while_loop fuel count [] 1 [] with
    | Some (Ok films, net) => Some (Returned (take (Z.to_nat count) films), net)
    | Some (Exc e, net) => Some (Raised e "", net)
    | None => None
    end.

(** *** What a page holds *)

(** What [_get_page] gives for a page. *)
Definition page_html (page : nat) : py (option string) :=
  (_get_page (page_url page) []).1.

(** The cards the loop finds on a page; none when the loop stops there
    (failed fetch, empty body, or a document without cards) and none
    when an exception leaves it there. *)
Definition page_cards (page : nat) : list Card :=
  match page_html page with
  | Ok (Some html) =>
      if PyStr.is_empty html then []
      else match BeautifulSoup html "lxml" with
           | Ok soup => soup_select soup card_selector
           | Exc _ => []
           end
  | _ => []
  end.

(** The exception that leaves the loop at a page, if one does: from the
    request, or from the parser. *)
Definition page_raises (page : nat) : option string :=
  match page_html page with
  | Exc e => Some e
  | Ok None => None
  | Ok (Some html) =>
      if PyStr.is_empty html then None
      else match BeautifulSoup html "lxml" with
           | Ok _ => None
           | Exc e => Some e
           end
  end.

(** The records of the cards of a page that parse, in card order. *)
Definition page_films (page : nat) : list Film :=
  omap _parse_film_card (page_cards page).

(** The records of [n] consecutive pages from [page] on, in page order. *)
Fixpoint films_from (page n : nat) : list Film :=
  match n with
  | O => []
  | S n => page_films page ++ films_from (S page) n
  end.

End KinoMailParser.

(** ** The [json] module, as far as the script drives it *)

Set Warnings "-register-all".

(** The Python values that [json.dump] is given here and that [json.load]
    can hand back: [str], [list], [dict] with [str] keys (in insertion
    order), and the three literals. Numbers are outside the model. *)
Inductive pyobj : Type :=
| PNone
| PBool (b : bool)
| PStr (s : string)
| PList (l : list pyobj)
| PDict (d : list (string * pyobj)).

Module Json.

Definition dquote : ascii := "034"%char.
Definition backslash : ascii := "092"%char.
Definition newline : ascii := "010"%char.

(** *** Encoder ([json/encoder.py], [ensure_ascii=False], [indent=2]) *)

Definition hex_digit (n : nat) : ascii :=
  if (n <? 10)%nat then ascii_of_nat (48 + n) else ascii_of_nat (87 + n).

(** [ESCAPE_DCT]: the characters that [ESCAPE] matches and what replaces
    them; every other character is written as it is. *)
Definition escape_char (c : ascii) : string :=
  let n := nat_of_ascii c in
  if (n =? 34)%nat then String backslash (String dquote "")
  else if (n =? 92)%nat then String backslash (String backslash "")
  else if (n =? 8)%nat then String backslash "b"
  else if (n =? 12)%nat then String backslash "f"
  else if (n =? 10)%nat then String backslash "n"
  else if (n =? 13)%nat then String backslash "r"
  else if (n =? 9)%nat then String backslash "t"
  else if (n <? 32)%nat then
    String backslash
      (String "u" (String "0" (String "0"
         (String (hex_digit (n / 16)) (String (hex_digit (n mod 16)) "")))))
  else String c "".

Fixpoint escape (s : string) : string :=
  match s with
  | EmptyString => ""
  | String c s => escape_char c +:+ escape s
  end.

(** [py_encode_basestring]. *)
Definition encode_basestring (s : string) : string :=
  String dquote (escape s +:+ String dquote "").

Fixpoint spaces (n : nat) : string :=
  match n with
  | O => ""
  | S n => String " " (spaces n)
  end.

(** ['\n' + indent * level], with [indent = 2]. *)
Definition newline_indent (level : nat) : string :=
  String newline (spaces (2 * level)).

Definition item_separator : string := ",".
Definition key_separator : string := ": ".

(** The items after the first one, each behind the separator. *)
Fixpoint encode_items {A} (enc : A -> string) (separator : string)
    (l : list A) : string :=
  match l with
  | [] => ""
  | y :: l => separator +:+ enc y +:+ encode_items enc separator l
  end.

(** [_iterencode], [_iterencode_list] and [_iterencode_dict], with the
    chunks concatenated. *)
Fixpoint iterencode (o : pyobj) (level : nat) : string :=
  match o with
  | PNone => "null"
  | PBool true => "true"
  | PBool false => "false"
  | PStr s => encode_basestring s
  | PList [] => "[]"
  | PList (x :: xs) =>
      let separator := item_separator +:+ newline_indent (S level) in
      "[" +:+ newline_indent (S level) +:+ iterencode x (S level)
      +:+ encode_items (fun y => iterencode y (S level)) separator xs
      +:+ newline_indent level +:+ "]"
  | PDict [] => "{}"
  | PDict ((k, v) :: kvs) =>
      let separator := item_separator +:+ newline_indent (S level) in
      "{" +:+ newline_indent (S level)
      +:+ encode_basestring k +:+ key_separator +:+ iterencode v (S level)
      +:+ encode_items
            (fun kv => encode_basestring kv.1 +:+ key_separator
                       +:+ iterencode kv.2 (S level))
            separator kvs
      +:+ newline_indent level +:+ "}"
  end.

(** [separator = _item_separator + newline_indent] inside a container
    at [level]. *)
Definition separator (level : nat) : string :=
  item_separator +:+ newline_indent (S level).

(** How [_iterencode_dict] writes one item of a dictionary at [level]. *)
Definition item_enc (level : nat) (kv : string * pyobj) : string :=
  encode_basestring kv.1 +:+ key_separator +:+ iterencode kv.2 (S level).

(** A dictionary whose values are all strings. *)
Definition str_fields (kvs : list (string * string)) : list (string * pyobj) :=
  (fun kv => (kv.1, PStr kv.2)) <$> kvs.

(** The chunks [_iterencode] yields, one by one as [json.dump] hands
    them to [fp.write]. In a list, a string or a literal comes in one
    chunk with what stands before it; a container follows what stands
    before it in chunks of its own. *)
Fixpoint iterencode_chunks (o : pyobj) (level : nat) : list string :=
  let item (buf : string) (value : pyobj) : list string :=
    match value with
    | PList _ | PDict _ => buf :: iterencode_chunks value (S level)
    | _ => [buf +:+ iterencode value (S level)]
    end in
  match o with
  | PNone => ["null"]
  | PBool true => ["true"]
  | PBool false => ["false"]
  | PStr s => [encode_basestring s]
  | PList [] => ["[]"]
  | PList (x :: xs) =>
      let separator := item_separator +:+ newline_indent (S level) in
      item ("[" +:+ newline_indent (S level)) x
      ++ flat_map (item separator) xs
      ++ [newline_indent level; "]"]
  | PDict [] => ["{}"]
  | PDict ((k, v) :: kvs) =>
      let separator := item_separator +:+ newline_indent (S level) in
      ["{"; newline_indent (S level); encode_basestring k; key_separator]
      ++ iterencode_chunks v (S level)
      ++ flat_map
           (fun kv => [separator; encode_basestring kv.1; key_separator]
                      ++ iterencode_chunks kv.2 (S level))
           kvs
      ++ [newline_indent level; "}"]
  end.

(** [json.dumps(obj, ensure_ascii=False, indent=2)]: what [json.dump]
    writes to the file. *)
Definition dumps (o : pyobj) : string := iterencode o 0.

(** *** Decoder ([json/decoder.py], [json/scanner.py]) *)

(** [WHITESPACE]: space, tab, line feed, carriage return. *)
Definition is_ws (c : ascii) : bool :=
  let n := nat_of_ascii c in
  ((n =? 32) || (n =? 9) || (n =? 10) || (n =? 13))%nat.

Fixpoint skip_ws (s : string) : string :=
  match s with
  | EmptyString => s
  | String c s' => if is_ws c then skip_ws s' else s
  end.

(** [BACKSLASH]: the one-letter escapes. *)
Definition unescape (c : ascii) : option ascii :=
  let n := nat_of_ascii c in
  if (n =? 34)%nat then Some dquote
  else if (n =? 92)%nat then Some backslash
  else if (n =? 47)%nat then Some "/"%char
  else if (n =? 98)%nat then Some "008"%char
  else if (n =? 102)%nat then Some "012"%char
  else if (n =? 110)%nat then Some "010"%char
  else if (n =? 114)%nat then Some "013"%char
  else if (n =? 116)%nat then Some "009"%char
  else None.

Definition hex_value (c : ascii) : option N :=
  let n := N_of_ascii c in
  if ((48 <=? n) && (n <=? 57))%N then Some (n - 48)%N
  else if ((97 <=? n) && (n <=? 102))%N then Some (n - 87)%N
  else if ((65 <=? n) && (n <=? 70))%N then Some (n - 55)%N
  else None.

(** [_decode_uXXXX]: four hexadecimal digits. *)
Definition decode_uXXXX (a b c d : ascii) : option N :=
  a ← hex_value a; b ← hex_value b; c ← hex_value c; d ← hex_value d;
  Some (((a * 16 + b) * 16 + c) * 16 + d)%N.

(** [chr(uni)] in the byte model: the UTF-8 bytes of the code point (a
    lone surrogate gets the three bytes of the general scheme). *)
Definition chr (uni : N) : string :=
  (if uni <? 128 then String (ascii_of_N uni) ""
   else if uni <? 2048 then
     String (ascii_of_N (192 + uni / 64))
       (String (ascii_of_N (128 + uni mod 64)) "")
   else if uni <? 65536 then
     String (ascii_of_N (224 + uni / 4096))
       (String (ascii_of_N (128 + (uni / 64) mod 64))
          (String (ascii_of_N (128 + uni mod 64)) ""))
   else
     String (ascii_of_N (240 + uni / 262144))
       (String (ascii_of_N (128 + (uni / 4096) mod 64))
          (String (ascii_of_N (128 + (uni / 64) mod 64))
             (String (ascii_of_N (128 + uni mod 64)) ""))))%N.

(** [py_scanstring] with [strict=True], from the character after the
    opening quote: the decoded string and the rest of the input. *)
Fixpoint scanstring (s : string) : py (string * string) :=
  match s with
  | EmptyString => Exc "Unterminated string starting at"
  | String c rest =>
      if Ascii.eqb c dquote then Ok ("", rest)
      else if Ascii.eqb c backslash then
        match rest with
        | EmptyString => Exc "Unterminated string starting at"
        | String esc rest =>
            if Ascii.eqb esc "u" then
              match rest with
              | String h1 (String h2 (String h3 (String h4 rest))) =>
                  match decode_uXXXX h1 h2 h3 h4 with
                  | None => Exc "Invalid \uXXXX escape"
                  | Some uni =>
                      let plain :=
                        '(str, tl) ← scanstring rest;
                        Ok (chr uni +:+ str, tl) in
                      if ((55296 <=? uni) && (uni <=? 56319))%N then
                        match rest with
                        | String b (String u rest2) =>
                            if Ascii.eqb b backslash && Ascii.eqb u "u" then
                              match rest2 with
                              | String l1 (String l2 (String l3 (String l4 rest'))) =>
                                  match decode_uXXXX l1 l2 l3 l4 with
                                  | None => Exc "Invalid \uXXXX escape"
                                  | Some uni2 =>
                                      if ((56320 <=? uni2) && (uni2 <=? 57343))%N
                                      then
                                        '(str, tl) ← scanstring rest';
                                        Ok (chr (65536 + ((uni - 55296) * 1024
                                                          + (uni2 - 56320))%N)
                                              +:+ str, tl)
                                      else plain
                                  end
                              | _ => Exc "Invalid \uXXXX escape"
                              end
                            else plain
                        | _ => plain
                        end
                      else plain
                  end
              | _ => Exc "Invalid \uXXXX escape"
              end
            else
              match unescape esc with
              | None => Exc "Invalid \escape"
              | Some char =>
                  '(str, tl) ← scanstring rest;
                  Ok (String char str, tl)
              end
        end
      else if (nat_of_ascii c <? 32)%nat then Exc "Invalid control character at"
      else
        '(str, tl) ← scanstring rest;
        Ok (String c str, tl)
  end.

(** [dict.__setitem__] on an insertion-ordered dictionary. *)
Fixpoint dict_set (d : list (string * pyobj)) (k : string) (v : pyobj)
  : list (string * pyobj) :=
  match d with
  | [] => [(k, v)]
  | (k', v') :: d =>
      if String.eqb k' k then (k', v) :: d else (k', v') :: dict_set d k v
  end.

(** [dict(pairs)]. *)
Definition dict_of_pairs (pairs : list (string * pyobj))
  : list (string * pyobj) :=
  foldl (fun d kv => dict_set d kv.1 kv.2) [] pairs.

(** A literal at the head of the input. *)
Definition literal (lit s : string) : option string :=
  if String.prefix lit s
  then Some (String.substring (String.length lit)
               (String.length s - String.length lit) s)
  else None.

(** [scan_once], [JSONObject] and [JSONArray]: the value at the head of
    the input and the rest. The two loops take the input at the next
    key, respectively the next value. [fuel] bounds the nesting of the
    calls. *)
Fixpoint scan_once (fuel : nat) (s : string) : py (pyobj * string) :=
  match fuel with
  | O => Exc "RecursionError"
  | S fuel =>
      match s with
      | EmptyString => Exc "Expecting value"
      | String c rest =>
          if Ascii.eqb c dquote then
            '(str, rest) ← scanstring rest; Ok (PStr str, rest)
          else if Ascii.eqb c "{" then
            match skip_ws rest with
            | String c' rest' =>
                if Ascii.eqb c' "}" then Ok (PDict [], rest')
                else if Ascii.eqb c' dquote then JSONObject fuel rest' []
                else Exc "Expecting property name enclosed in double quotes"
            | EmptyString =>
                Exc "Expecting property name enclosed in double quotes"
            end
          else if Ascii.eqb c "[" then
            match skip_ws rest with
            | String c' rest' =>
                if Ascii.eqb c' "]" then Ok (PList [], rest')
                else JSONArray fuel (String c' rest') []
            | EmptyString => Exc "Expecting value"
            end
          else
            match literal "null" s, literal "true" s, literal "false" s with
            | Some rest, _, _ => Ok (PNone, rest)
            | _, Some rest, _ => Ok (PBool true, rest)
            | _, _, Some rest => Ok (PBool false, rest)
            | _, _, _ => Exc "Expecting value"
            end
      end
  end
with JSONObject (fuel : nat) (s : string) (pairs : list (string * pyobj))
  : py (pyobj * string) :=
  match fuel with
  | O => Exc "RecursionError"
  | S fuel =>
      '(key, s) ← scanstring s;
      match skip_ws s with
      | String c s =>
          if Ascii.eqb c ":" then
            '(value, s) ← scan_once fuel (skip_ws s);
            let pairs := pairs ++ [(key, value)] in
            match skip_ws s with
            | String c s =>
                if Ascii.eqb c "}" then Ok (PDict (dict_of_pairs pairs), s)
                else if Ascii.eqb c "," then
                  match skip_ws s with
                  | String c s =>
                      if Ascii.eqb c dquote then JSONObject fuel s pairs
                      else Exc "Expecting property name enclosed in double quotes"
                  | EmptyString =>
                      Exc "Expecting property name enclosed in double quotes"
                  end
                else Exc "Expecting ',' delimiter"
            | EmptyString => Exc "Expecting ',' delimiter"
            end
          else Exc "Expecting ':' delimiter"
      | EmptyString => Exc "Expecting ':' delimiter"
      end
  end
with JSONArray (fuel : nat) (s : string) (values : list pyobj)
  : py (pyobj * string) :=
  match fuel with
  | O => Exc "RecursionError"
  | S fuel =>
      '(value, s) ← scan_once fuel s;
      let values := values ++ [value] in
      match skip_ws s with
      | String c s =>
          if Ascii.eqb c "]" then Ok (PList values, s)
          else if Ascii.eqb c "," then JSONArray fuel (skip_ws s) values
          else Exc "Expecting ',' delimiter"
      | EmptyString => Exc "Expecting ',' delimiter"
      end
  end.

(** [json.loads(s)]: [JSONDecoder.decode]. Every call of the scanner
    consumes a character within two steps, so twice the length of the
    document is fuel enough. *)
Definition loads (s : string) : py pyobj :=
  '(obj, rest) ← scan_once (2 * String.length s + 2) (skip_ws s);
  match skip_ws rest with
  | EmptyString => Ok obj
  | String _ _ => Exc "Extra data"
  end.

End Json.

(** ** Export *)

(** [vars(f)]: the attributes of the record, in the order the dataclass
    sets them. *)
Definition vars (f : Film) : list (string * pyobj) :=
  [("title", PStr (title f));
   ("original_title", PStr (original_title f));
   ("year", PStr (year f));
   ("rating", PStr (rating f));
   ("genres", PStr (genres f));
   ("country", PStr (country f));
   ("url", PStr (url f));
   ("director", PStr (director f))].

(** [[vars(f) for f in films]]. *)
Definition film_objs (films : list Film) : list pyobj :=
  (fun f => PDict (vars f)) <$> films.

(** Whether a text starts with a byte in A0..BF. *)
Definition starts_A0_BF (s : string) : bool :=
  match s with
  | String b _ => (160 <=? nat_of_ascii b)%nat && (nat_of_ascii b <=? 191)%nat
  | EmptyString => false
  end.

(** Whether a text holds a lone surrogate: the byte ED followed by a
    byte in A0..BF. *)
Fixpoint has_surrogate (s : string) : bool :=
  match s with
  | EmptyString => false
  | String a s' =>
      (nat_of_ascii a =? 237)%nat && starts_A0_BF s' || has_surrogate s'
  end.

(** Whether UTF-8 can encode every text of a record. *)
Definition encodable (f : Film) : bool :=
  negb (has_surrogate (title f) || has_surrogate (original_title f)
        || has_surrogate (year f) || has_surrogate (rating f)
        || has_surrogate (genres f) || has_surrogate (country f)
        || has_surrogate (url f) || has_surrogate (director f)).

(** [for chunk in iterable: fp.write(chunk)] on a file opened with
    [encoding='utf-8']: a chunk with a lone surrogate raises
    [UnicodeEncodeError] and the file keeps the chunks written before
    it. *)
Fixpoint write_chunks (chunks : list string) (written : string)
  : option string * string :=
  match chunks with
  | [] => (None, written)
  | chunk :: chunks =>
      if has_surrogate chunk then (Some "UnicodeEncodeError", written)
      else write_chunks chunks (written +:+ chunk)
  end.

(** [save_to_json]: the file system is a map from file names to the text
    they hold. [open(filename, 'w', encoding='utf-8')] raises for the
    names the operating system refuses ([refused] gives the exception: a
    directory, a missing folder, no permission) and then no file is
    touched; otherwise it replaces the file, and [json.dump] writes the
    chunks. The result is the exception raised, if any, and the file
    system. *)
Definition save_to_json (refused : string -> option string)
    (films : list Film) (filename : string) (fs : gmap string string)
  : option string * gmap string string :=
  match refused filename with
  | Some exc => (Some exc, fs)
  | None =>
      let '(exc, written) :=
        write_chunks (Json.iterencode_chunks (PList (film_objs films)) 0) "" in
      (exc, <[filename := written]> fs)
  end.

(** Reading the file back: [json.load(open(filename, encoding='utf-8'))]. *)
Definition json_load (fs : gmap string string) (filename : string) : py pyobj :=
  match fs !! filename with
  | Some s => Json.loads s
  | None => Exc "FileNotFoundError"
  end.

(** ** The script's entry point *)

(** What pandas makes of an export, [pd.DataFrame(rows).to_csv(filename,
    index=False)] or [.to_excel(filename, index=False)]: the text (for a
    spreadsheet, the bytes) it writes, or a raise that leaves the file
    untouched or with part of the text. *)
Inductive export : Type :=
| Wrote (content : string)
| Failed (exc : string) (left : option string).

(** The file system after an export, and the exception if it raised. *)
Definition export_to (e : export) (filename : string)
    (fs : gmap string string) : option string * gmap string string :=
  match e with
  | Wrote content => (None, <[filename := content]> fs)
  | Failed exc None => (Some exc, fs)
  | Failed exc (Some part) => (Some exc, <[filename := part]> fs)
  end.

(** How a run of the script ends: it runs to its last line, it leaves
    through [exit()], or an exception reaches the top. *)
Inductive ending : Type :=
| Completed
| Exited
| Uncaught (exc : string).

Section Main.

Variable requests_get : string -> py Response.
Variable BeautifulSoup : string -> string -> py Soup.

(** The names [open(filename, 'w')] is refused for, with the exception. *)
Variable refused : string -> option string.

(** The two pandas writers, as functions of the rows. *)
Variable to_csv : list pyobj -> export.
Variable to_excel : list pyobj -> export.

(** [save_to_csv] and [save_to_excel]. *)
Definition save_to_csv (films : list Film) (filename : string)
    (fs : gmap string string) : option string * gmap string string :=
  export_to (to_csv (film_objs films)) filename fs.

Definition save_to_excel (films : list Film) (filename : string)
    (fs : gmap string string) : option string * gmap string string :=
  export_to (to_excel (film_objs films)) filename fs.

(** [f"kino_mail_top_{count}_films"]. *)
Definition base_filename (count : Z) : string :=
  "kino_mail_top_" +:+ pretty count +:+ "_films".

(** The [__main__] block. [input] is what [int(input(...))] gives: the
    number typed, or the exception it raises ([ValueError] when the text
    is no integer). The result is the ending, the URLs requested and the
    file system; messages printed are left out. An exception out of
    [get_top_films] or out of one of the three exports reaches the top,
    and the exports after it do not run. *)
Definition main (fuel : nat) (input : py Z) (fs : gmap string string)
  : option (ending * list string * gmap string string) :=
  let checked :=
    count ← input;
    if bool_decide (count < 1 ∨ count > 150) then Exc "ValueError"
    else Ok count in
  match checked with
  | Exc exc =>
      if is_ValueError exc then Some (Exited, [], fs)
      else Some (Uncaught exc, [], fs)
  | Ok count =>
      match get_top_films requests_get BeautifulSoup fuel count with
      | None => None
      | Some (Raised exc _, net) => Some (Uncaught exc, net, fs)
      | Some (Returned films, net) =>
          match films with
          | [] => Some (Completed, net, fs)
          | _ :: _ =>
              let base := base_filename count in
              match save_to_json refused films (base +:+ ".json") fs with
              | (Some exc, fs) => Some (Uncaught exc, net, fs)
              | (None, fs) =>
                  match save_to_csv films (base +:+ ".csv") fs with
                  | (Some exc, fs) => Some (Uncaught exc, net, fs)
                  | (None, fs) =>
                      match save_to_excel films (base +:+ ".xlsx") fs with
                      | (Some exc, fs) => Some (Uncaught exc, net, fs)
                      | (None, fs) => Some (Completed, net, fs)
                      end
                  end
              end
          end
      end
  end.

End Main.

(** ** Sample cards and sites *)

Module Examples.

Definition span (t : string) : Tag := mkTag t ∅.
Definition anchor (t href : string) : Tag := mkTag t {[ "href" := href ]}.

(** A card given by what each of the five queries finds in it. *)
Definition card_of (title_elem original_title_elem : option Tag)
    (details : list Tag) (rating_elem url_elem : option Tag) : Card :=
  mkCard
    (fun sel =>
       if String.eqb sel title_selector then Ok title_elem
       else if String.eqb sel original_title_selector then Ok original_title_elem
       else if String.eqb sel rating_selector then Ok rating_elem
       else if String.eqb sel url_selector then Ok url_elem
       else Ok None)
    (fun sel => if String.eqb sel details_selector then Ok details else Ok []).

Definition brat2 : Card :=
  card_of (Some (span "  Брат 2 ")) (Some (span "Brat 2"))
    [anchor " Россия" "/cinema/all/rus/"; anchor "2000 " "/cinema/all/2000/";
     anchor "боевик" "/cinema/all/action/"; anchor " драма " "/cinema/all/drama/"]
    (Some (span "8.1")) (Some (anchor "" "/cinema/movies/brat2/")).

Definition leon : Card :=
  card_of (Some (span "Леон")) None
    [anchor "Франция" "/cinema/all/fra/"; anchor "1994" "/cinema/all/1994/"]
    None (Some (anchor "" "/cinema/movies/leon/")).

Definition alien : Card :=
  card_of (Some (span "Alien")) None [] (Some (span "8.5"))
    (Some (anchor "" "/cinema/movies/alien/")).

Definition solaris : Card :=
  card_of (Some (span "Солярис")) None [anchor "СССР" "/cinema/all/sun/"]
    (Some (span "8.0")) (Some (anchor "" "/cinema/movies/solaris/")).

(** No title element. *)
Definition untitled : Card :=
  card_of None None [] (Some (span "7.0")) (Some (anchor "" "/cinema/movies/x/")).

(** No link element. *)
Definition unlinked : Card :=
  card_of (Some (span "Stalker")) None [] None None.

(** A link element without [href]. *)
Definition no_href : Card :=
  card_of (Some (span "Stalker")) None [] None (Some (span "")).

(** A title element holding white space only. *)
Definition blank_title : Card :=
  card_of (Some (span "   ")) None [] None (Some (anchor "" "/cinema/movies/y/")).

(** Two detail links without text. *)
Definition blank_details : Card :=
  card_of (Some (span "Stalker")) None [anchor "" "/a/"; anchor "  " "/b/"]
    None (Some (anchor "" "/cinema/movies/stalker/")).

(** An [href] that is no link at all. *)
Definition bad_href : Card :=
  card_of (Some (span "Stalker")) None [] None (Some (anchor "" " <not a link> ")).

(** An [href] that is already absolute. *)
Definition absolute_href : Card :=
  card_of (Some (span "Stalker")) None [] None
    (Some (anchor "" "https://example.org/stalker")).

(** A card whose detail query raises. *)
Definition broken : Card :=
  mkCard (select_one brat2) (fun _ => Exc "AttributeError").

(** What a sample site answers for one page. *)
Inductive answer : Type :=
| Unreachable
| Status (code : Z)
| Body (html : string) (cards : list Card).

Fixpoint answer_of (pages : list answer) (page : nat) (url : string)
  : option answer :=
  match pages with
  | [] => None
  | a :: pages =>
      if String.eqb (page_url page) url then Some a
      else answer_of pages (S page) url
  end.

(** The site serving [pages] as pages 1, 2, ... and 404 beyond them. *)
Definition site_get (pages : list answer) (url : string) : py Response :=
  match answer_of pages 1 url with
  | Some Unreachable => Exc "ConnectionError"
  | Some (Status code) => Ok (mkResponse code "<html>error</html>")
  | Some (Body html _) => Ok (mkResponse 200 html)
  | None => Ok (mkResponse 404 "<html>not found</html>")
  end.

Fixpoint cards_of (pages : list answer) (html : string) : list Card :=
  match pages with
  | [] => []
  | Body html' cards :: pages =>
      if String.eqb html' html then cards else cards_of pages html
  | _ :: pages => cards_of pages html
  end.

Definition site_soup (pages : list answer) (html features : string)
  : py Soup :=
  Ok (mkSoup (fun sel =>
                if String.eqb sel card_selector then cards_of pages html
                else [])).

Definition two_pages : list answer :=
  [Body "<html>1</html>" [brat2; untitled; leon];
   Body "<html>2</html>" [alien; solaris]].

Definition failing_second : list answer :=
  [Body "<html>1</html>" [brat2; leon]; Unreachable;
   Body "<html>3</html>" [alien]].

Definition empty_second : list answer :=
  [Body "<html>1</html>" [brat2; leon]; Body "" [];
   Body "<html>3</html>" [alien]].

Definition blank_site : list answer := [Body "<html>1</html>" [blank_title]].

Definition absolute_site : list answer :=
  [Body "<html>1</html>" [absolute_href; brat2]].

(** The records of the four well-formed cards. *)
Definition brat2_film : Film :=
  mkFilm "Брат 2" "Brat 2" "2000" "8.1" "боевик, драма" "Россия"
    "https://kino.mail.ru/cinema/movies/brat2/" "".
Definition leon_film : Film :=
  mkFilm "Леон" "" "1994" "Н/Д" "" "Франция"
    "https://kino.mail.ru/cinema/movies/leon/" "".
Definition alien_film : Film :=
  mkFilm "Alien" "" "" "8.5" "" ""
    "https://kino.mail.ru/cinema/movies/alien/" "".
Definition solaris_film : Film :=
  mkFilm "Солярис" "" "" "8.0" "" "СССР"
    "https://kino.mail.ru/cinema/movies/solaris/" "".

(** A site that answers every page with the same document, whose single
    card has no title element. *)
Definition endless_get (url : string) : py Response :=
  Ok (mkResponse 200 "<html>...</html>").
Definition endless_soup (html features : string) : py Soup :=
  Ok (mkSoup (fun _ => [untitled])).

End Examples.


(** ** Sample exports *)

Module MainExamples.

(** Stand-ins for the two pandas writers: one line per row, and a fixed
    header of bytes. *)
Definition csv_lines (rows : list pyobj) : export :=
  Wrote (Json.encode_items (fun _ => "row") (String Json.newline "") rows).

Definition xlsx_bytes (rows : list pyobj) : export := Wrote "PK".

(** A spreadsheet writer whose engine is missing. *)
Definition xlsx_missing (rows : list pyobj) : export :=
  Failed "ModuleNotFoundError" None.

(** A file system with one file in it. *)
Definition some_files : gmap string string := {[ "notes.txt" := "keep" ]}.

(** A card whose title is the lone surrogate U+D800 (the bytes ED A0 80),
    its record, and a site that lists it. *)
Definition surrogate_card : Card :=
  Examples.card_of
    (Some (Examples.span (String "237" (String "160" (String "128" "")))))
    None
    [Examples.anchor "СССР" "/cinema/all/sun/";
     Examples.anchor "1979" "/cinema/all/1979/"]
    None (Some (Examples.anchor "" "/cinema/movies/stalker/")).

Definition surrogate_film : Film :=
  mkFilm (String "237" (String "160" (String "128" ""))) "" "1979" "Н/Д" ""
    "СССР" "https://kino.mail.ru/cinema/movies/stalker/" "".

Definition surrogate_site : list Examples.answer :=
  [Examples.Body "<html>1</html>" [Examples.brat2; surrogate_card]].

(** An operating system that refuses no name, and one for which the name
    of the JSON file of three films is a directory. *)
Definition no_refusal (filename : string) : option string := None.

Definition json_is_directory (filename : string) : option string :=
  if String.eqb filename "kino_mail_top_3_films.json"
  then Some "IsADirectoryError"
  else None.

(** A site whose second request raises an exception that is no
    [RequestException], and a parser that is not installed. *)
Definition crashing_get (url : string) : py Response :=
  if String.eqb url (page_url 2) then Exc "AttributeError"
  else Examples.site_get Examples.two_pages url.

Definition no_parser (html features : string) : py Soup :=
  Exc "FeatureNotFound".

(** A site whose second page is an error page, with a body in which the
    parser would find the cards of the first page. *)
Definition error_second : list Examples.answer :=
  [Examples.Body "<html>error</html>" [Examples.brat2; Examples.leon];
   Examples.Status 503].

End MainExamples.

(** * Properties *)

(** ** Card extraction *)

Section Extraction.

Implicit Types (card : Card) (f film : Film).

(** What a card that yields a record looks like, and the record. *)
Lemma parse_Some card f :
  _parse_film_card card = Some f ->
  exists t ot details r u h,
    select_one card title_selector = Ok (Some t)
    /\ select_one card original_title_selector = Ok ot
    /\ select card details_selector = Ok details
    /\ select_one card rating_selector = Ok r
    /\ select_one card url_selector = Ok (Some u)
    /\ attrs u !! "href" = Some h
    /\ f = Film_init
             (PyStr.strip (text t))
             (from_option (fun e => PyStr.strip (text e)) "" ot)
             (from_option (fun e => PyStr.strip (text e)) "" (details !! 1%nat))
             (from_option (fun e => PyStr.strip (text e)) rating_missing r)
             (PyStr.join ", " ((fun g => PyStr.strip (text g)) <$> drop 2 details))
             (from_option (fun e => PyStr.strip (text e)) "" (details !! 0%nat))
             (base_url +:+ h).
Proof.
  unfold _parse_film_card, _parse_film_card_try.
  destruct (select_one card title_selector) as [[t|]|] eqn:Ht; simpl; try done.
  destruct (select_one card original_title_selector) as [ot|] eqn:Hot; simpl; try done.
  destruct (select card details_selector) as [details|] eqn:Hd; simpl; try done.
  destruct details as [|d0 [|d1 [|d2 ds]]]; simpl;
    (destruct (select_one card rating_selector) as [r|] eqn:Hr; simpl; try done);
    (destruct (select_one card url_selector) as [[u|]|] eqn:Hu; simpl; try done);
    (case_bool_decide as Hh; try done);
    unfold py_getitem;
    (destruct (attrs u !! "href") as [h|] eqn:Hhref; try done); simpl;
    intros [= <-]; eexists t, ot, _, r, u, h; repeat split; done.
Qed.

(** A raise inside the [try] block is swallowed. *)
Lemma parse_Exc card e :
  _parse_film_card_try card = Exc e -> _parse_film_card card = None.
Proof. unfold _parse_film_card. by intros ->. Qed.

(** A card that yields nothing leaves the loop over the page as it would
    be without that card. *)
Lemma for_cards_skip count before card after films :
  _parse_film_card card = None ->
  for_cards count (before ++ card :: after) films
  = for_cards count (before ++ after) films.
Proof.
  intros Hnone. revert films.
  induction before as [|c before IH]; intros films; simpl.
  - by rewrite Hnone.
  - destruct (_parse_film_card c); [|done].
    case_bool_decide; [done|]. apply IH.
Qed.

(** The loop over the cards of a page appends the records of the cards
    that parse, in card order, and stops at [count]. *)
Lemma for_cards_take count cards films :
  Z.of_nat (length films) < count ->
  for_cards count cards films
  = take (Z.to_nat count) (films ++ omap _parse_film_card cards).
Proof.
  revert films. induction cards as [|card cards IH]; intros films Hlen; simpl.
  - rewrite app_nil_r, take_ge; [done | lia].
  - destruct (_parse_film_card card) as [film|]; [|by apply IH].
    case_bool_decide as Hfull.
    + set (rest := list_omap _ _ _ cards).
      rewrite (cons_middle film films rest), (assoc_L (++)).
      rewrite take_app_length'; [done|].
      rewrite length_app in *; simpl in *; lia.
    + rewrite IH; [|lia].
      by rewrite <- (assoc_L (++)).
Qed.

End Extraction.

(** ** The collector *)

Lemma take_take_app {A} (n : nat) (l1 l2 : list A) :
  take n (take n l1 ++ l2) = take n (l1 ++ l2).
Proof.
  destruct (decide (n <= length l1)%nat) as [Hle|Hgt].
  - rewrite !take_app_le; [by rewrite take_take, Nat.min_id | done |].
    rewrite length_take; lia.
  - rewrite (take_ge l1); [done | lia].
Qed.

(** Distinct pages have distinct URLs. *)
Lemma page_url_inj (p q : nat) :
  (1 <= p)%nat -> (1 <= q)%nat -> page_url p = page_url q -> p = q.
Proof.
  intros Hp Hq. unfold page_url.
  repeat case_bool_decide; intros Heq; try lia.
  - apply (inj (String.app top_url)), (inj (String.app "?page=")) in Heq.
    by apply (inj pretty) in Heq.
  - change top_url with (top_url +:+ "") in Heq at 2.
    by apply (inj (String.app top_url)) in Heq.
  - change top_url with (top_url +:+ "") in Heq at 1.
    by apply (inj (String.app top_url)) in Heq.
Qed.

Lemma page_urls_NoDup (page n : nat) :
  (1 <= page)%nat -> NoDup (page_url <$> seq page n).
Proof.
  intros Hpage. apply NoDup_fmap_2_strong; [|apply NoDup_seq].
  intros p q Hp%elem_of_seq Hq%elem_of_seq. apply page_url_inj; lia.
Qed.

Section Collector.

Variable requests_get : string -> py Response.
Variable BeautifulSoup : string -> string -> py Soup.

Implicit Types (count : Z) (films : list Film) (net : list string).

(** Every call of [_get_page] is one request, whatever it returns. *)
Lemma _get_page_eq url net :
  _get_page requests_get url net
  = ((_get_page requests_get url []).1, net ++ [url]).
Proof.
  unfold _get_page. simpl.
  destruct (_ ≫= _) as [html|e]; [done|]. by destruct (is_RequestException e).
Qed.

(** The loop is over once [count] records are there. *)
Lemma while_loop_full fuel count films page net :
  count <= Z.of_nat (length films) ->
  while_loop requests_get BeautifulSoup fuel count films page net
  = Some (Ok films, net).
Proof.
  intros Hfull. destruct fuel; simpl; case_bool_decide; (done || lia).
Qed.

(** A page without cards, read without an exception, ends the loop. *)
Lemma while_loop_stop_here fuel count films page net :
  Z.of_nat (length films) < count ->
  page_cards requests_get BeautifulSoup page = [] ->
  page_raises requests_get BeautifulSoup page = None ->
  while_loop requests_get BeautifulSoup (S fuel) count films page net
  = Some (Ok films, net ++ [page_url page]).
Proof.
  intros Hshort. unfold page_cards, page_raises, page_html.
  simpl. rewrite bool_decide_true by done.
  rewrite (_get_page_eq _ net).
  destruct (_get_page requests_get (page_url page) []).1 as [[html|]|e];
    [|done..].
  destruct (PyStr.is_empty html); [done|].
  destruct (BeautifulSoup html "lxml") as [soup|e]; [|done].
  by intros ->.
Qed.

(** A page with cards is read and the loop goes on to the next page. *)
Lemma while_loop_next fuel count films page net :
  Z.of_nat (length films) < count ->
  page_cards requests_get BeautifulSoup page <> [] ->
  while_loop requests_get BeautifulSoup (S fuel) count films page net
  = while_loop requests_get BeautifulSoup fuel count
      (for_cards count (page_cards requests_get BeautifulSoup page) films)
      (S page) (net ++ [page_url page]).
Proof.
  intros Hshort. unfold page_cards, page_html.
  simpl. rewrite bool_decide_true by done.
  rewrite (_get_page_eq _ net).
  destruct (_get_page requests_get (page_url page) []).1 as [[html|]|e];
    [|done..].
  destruct (PyStr.is_empty html); [done|].
  destruct (BeautifulSoup html "lxml") as [soup|e]; [|done].
  by destruct (soup_select _ _).
Qed.

(** An exception at a page leaves the loop, and the records with it. *)
Lemma while_loop_raise_here fuel count films page net e :
  Z.of_nat (length films) < count ->
  page_raises requests_get BeautifulSoup page = Some e ->
  while_loop requests_get BeautifulSoup (S fuel) count films page net
  = Some (Exc e, net ++ [page_url page]).
Proof.
  intros Hshort. unfold page_raises, page_html.
  simpl. rewrite bool_decide_true by done.
  rewrite (_get_page_eq _ net).
  destruct (_get_page requests_get (page_url page) []).1 as [[html|]|e'];
    [|done|by intros [= ->]].
  destruct (PyStr.is_empty html); [done|].
  destruct (BeautifulSoup html "lxml") as [soup|e']; [done|].
  by intros [= ->].
Qed.

(** A page with cards raised nothing. *)
Lemma page_cards_no_raise page :
  page_cards requests_get BeautifulSoup page <> [] ->
  page_raises requests_get BeautifulSoup page = None.
Proof.
  unfold page_cards, page_raises.
  destruct (page_html requests_get page) as [[html|]|e]; [|done..].
  destruct (PyStr.is_empty html); [done|].
  by destruct (BeautifulSoup html "lxml").
Qed.

(** A failed fetch and an empty body both leave a page without cards. *)
Lemma page_cards_failed page :
  page_html requests_get page = Ok None ->
  page_cards requests_get BeautifulSoup page = [].
Proof. unfold page_cards. by intros ->. Qed.

Lemma page_cards_empty_body page :
  page_html requests_get page = Ok (Some "") ->
  page_cards requests_get BeautifulSoup page = [].
Proof. unfold page_cards. by intros ->. Qed.

Lemma page_raises_failed page :
  page_html requests_get page = Ok None ->
  page_raises requests_get BeautifulSoup page = None.
Proof. unfold page_raises. by intros ->. Qed.

Lemma page_raises_empty_body page :
  page_html requests_get page = Ok (Some "") ->
  page_raises requests_get BeautifulSoup page = None.
Proof. unfold page_raises. by intros ->. Qed.

Lemma get_top_films_eq fuel count :
  get_top_films requests_get BeautifulSoup fuel count
  = if bool_decide (count < 1 \/ count > 150)
    then Some (Raised "ValueError" "Можно собрать от 1 до 150 фильмов", [])
    else match while_loop requests_get BeautifulSoup fuel count [] 1 [] with
         | Some (Ok films, net) =>
             Some (Returned (take (Z.to_nat count) films), net)
         | Some (Exc e, net) => Some (Raised e "", net)
         | None => None
         end.
Proof. done. Qed.

Local Abbreviation while_loop := (while_loop requests_get BeautifulSoup).
Local Abbreviation get_top_films := (get_top_films requests_get BeautifulSoup).
Local Abbreviation page_html := (page_html requests_get).
Local Abbreviation page_cards := (page_cards requests_get BeautifulSoup).
Local Abbreviation page_raises := (page_raises requests_get BeautifulSoup).
Local Abbreviation page_films := (page_films requests_get BeautifulSoup).
Local Abbreviation films_from := (films_from requests_get BeautifulSoup).

(** Pages with cards, as many as it takes: the loop returns the first
    [count] records, having asked for no page once [count] was
    reached. *)
Lemma while_loop_reach count n : forall films page,
  (forall i, (i < n)%nat -> page_cards (page + i) <> []) ->
  Z.of_nat (length films) <= count ->
  count <= Z.of_nat (length (films ++ films_from page n)) ->
  exists j, (j <= n)%nat
    /\ (forall i, (i < j)%nat ->
          Z.of_nat (length (films ++ films_from page i)) < count)
    /\ forall fuel net, (n <= fuel)%nat ->
          while_loop fuel count films page net
          = Some (Ok (take (Z.to_nat count) (films ++ films_from page n)),
                  net ++ (page_url <$> seq page j)).
Proof.
  induction n as [|n IH]; intros films page Hlive Hlen Hreach.
  - exists 0%nat. simpl in *. rewrite app_nil_r in *.
    split; [done|]. split; [lia|]. intros fuel net _.
    rewrite while_loop_full by lia. rewrite take_ge by lia.
    by rewrite app_nil_r.
  - destruct (decide (count <= Z.of_nat (length films))) as [Hfull|Hshort].
    + exists 0%nat. split; [lia|]. split; [lia|]. intros fuel net _.
      rewrite while_loop_full by done.
      rewrite take_app_le, take_ge by lia. simpl. by rewrite app_nil_r.
    + simpl in Hreach. rewrite length_app in Hreach.
      destruct (IH (take (Z.to_nat count) (films ++ page_films page)) (S page))
        as (j & Hj & Hmin & Hrun).
      * intros i Hi. replace (S page + i)%nat with (page + S i)%nat by lia.
        apply Hlive. lia.
      * rewrite length_take. lia.
      * rewrite length_app, length_take, length_app in *. lia.
      * exists (S j). split; [lia|]. split.
        -- intros [|i] Hi; simpl.
           ++ rewrite app_nil_r. lia.
           ++ specialize (Hmin i ltac:(lia)).
              rewrite !length_app, length_take, length_app in *. lia.
        -- intros [|fuel] net Hfuel; [lia|].
           rewrite while_loop_next; [|lia|].
           2:{ specialize (Hlive 0%nat). rewrite Nat.add_0_r in Hlive.
               apply Hlive. lia. }
           rewrite for_cards_take by lia. fold (page_films page).
           rewrite Hrun by lia. simpl. rewrite take_take_app.
           by rewrite <- !(assoc_L (++)).
Qed.

(** Pages with cards, then one without, before [count] is reached: the
    loop returns all the records found, having asked for every page up
    to the one that stops it. *)
Lemma while_loop_stop count n : forall fuel films page net,
  (forall i, (i < n)%nat -> page_cards (page + i) <> []) ->
  page_cards (page + n) = [] ->
  page_raises (page + n) = None ->
  Z.of_nat (length (films ++ films_from page n)) < count ->
  (n < fuel)%nat ->
  while_loop fuel count films page net
  = Some (Ok (films ++ films_from page n),
          net ++ (page_url <$> seq page (S n))).
Proof.
  induction n as [|n IH];
    intros fuel films page net Hlive Hstop Hquiet Hshort Hfuel;
    (destruct fuel as [|fuel]; [lia|]).
  - simpl in *. rewrite Nat.add_0_r, app_nil_r in *.
    by apply while_loop_stop_here.
  - simpl in Hshort. rewrite !length_app in Hshort.
    rewrite while_loop_next; [|lia|].
    2:{ specialize (Hlive 0%nat). rewrite Nat.add_0_r in Hlive.
        apply Hlive. lia. }
    rewrite for_cards_take by lia. fold (page_films page).
    rewrite take_ge by (rewrite length_app; lia).
    rewrite IH.
    + simpl. by rewrite <- !(assoc_L (++)).
    + intros i Hi. replace (S page + i)%nat with (page + S i)%nat by lia.
      apply Hlive. lia.
    + by replace (S page + n)%nat with (page + S n)%nat by lia.
    + by replace (S page + n)%nat with (page + S n)%nat by lia.
    + rewrite !length_app. lia.
    + lia.
Qed.

(** Pages with cards, then one at which an exception is raised, before
    [count] is reached: the exception leaves the loop. *)
Lemma while_loop_raise count n e : forall fuel films page net,
  (forall i, (i < n)%nat -> page_cards (page + i) <> []) ->
  page_raises (page + n) = Some e ->
  Z.of_nat (length (films ++ films_from page n)) < count ->
  (n < fuel)%nat ->
  while_loop fuel count films page net
  = Some (Exc e, net ++ (page_url <$> seq page (S n))).
Proof.
  induction n as [|n IH];
    intros fuel films page net Hlive Hraise Hshort Hfuel;
    (destruct fuel as [|fuel]; [lia|]).
  - simpl in *. rewrite Nat.add_0_r, app_nil_r in *.
    by apply while_loop_raise_here.
  - simpl in Hshort. rewrite !length_app in Hshort.
    rewrite while_loop_next; [|lia|].
    2:{ specialize (Hlive 0%nat). rewrite Nat.add_0_r in Hlive.
        apply Hlive. lia. }
    rewrite for_cards_take by lia. fold (page_films page).
    rewrite take_ge by (rewrite length_app; lia).
    rewrite IH.
    + simpl. by rewrite <- !(assoc_L (++)).
    + intros i Hi. replace (S page + i)%nat with (page + S i)%nat by lia.
      apply Hlive. lia.
    + by replace (S page + n)%nat with (page + S n)%nat by lia.
    + rewrite !length_app. lia.
    + lia.
Qed.

(** Whatever the loops return was parsed from a card of some page. *)
Lemma for_cards_Forall (P : Film -> Prop) count cards films :
  (forall card f, card ∈ cards -> _parse_film_card card = Some f -> P f) ->
  Forall P films -> Forall P (for_cards count cards films).
Proof.
  revert films. induction cards as [|card cards IH]; intros films HP Hfilms;
    simpl; [done|].
  destruct (_parse_film_card card) as [film|] eqn:Hcard.
  - assert (Forall P (films ++ [film])) as Hfilms'.
    { apply Forall_app. split; [done|]. apply Forall_singleton.
      eapply HP; [|done]. left. }
    case_bool_decide; [done|].
    apply IH; [|done]. intros c f Hc. apply HP. by right.
  - apply IH; [|done]. intros c f Hc. apply HP. by right.
Qed.

Lemma while_loop_Forall (P : Film -> Prop) count fuel :
  (forall page card f,
      card ∈ page_cards page -> _parse_film_card card = Some f -> P f) ->
  forall films page net films' net',
    Forall P films ->
    while_loop fuel count films page net = Some (Ok films', net') ->
    Forall P films'.
Proof.
  intros HP. induction fuel as [|fuel IH]; intros films page net films' net' Hfilms.
  - simpl. case_bool_decide; [done|]. by intros [= <- <-].
  - destruct (decide (count <= Z.of_nat (length films))) as [Hfull|Hshort].
    { rewrite while_loop_full by done. by intros [= <- <-]. }
    destruct (decide (page_cards page = [])) as [Hstop|Hlive].
    { destruct (page_raises page) as [e|] eqn:Hraise.
      - by rewrite (while_loop_raise_here _ _ _ _ _ e) by (done || lia).
      - rewrite while_loop_stop_here by (done || lia). by intros [= <- <-]. }
    rewrite while_loop_next by (done || lia).
    apply IH. apply for_cards_Forall; [|done]. apply HP.
Qed.

Lemma get_top_films_Forall (P : Film -> Prop) fuel count films net :
  (forall page card f,
      card ∈ page_cards page -> _parse_film_card card = Some f -> P f) ->
  get_top_films fuel count = Some (Returned films, net) ->
  Forall P films.
Proof.
  intros HP. rewrite get_top_films_eq.
  case_bool_decide; [done|].
  destruct (while_loop fuel count [] 1 []) as [[[films'|e] net']|] eqn:Hrun;
    [|done..].
  intros [= <- <-]. apply Forall_take.
  eapply while_loop_Forall; [apply HP| |apply Hrun]. done.
Qed.

(** C1 (as amended). For a count in [1,150], on a site whose pages 1..k
    all come with cards and where either these pages hold at least
    [count] records or page k+1 stops the loop (failed fetch, empty
    body or no card, and no exception), [get_top_films] returns, with
    enough fuel, the first [count] records of pages 1..k in page order
    then card order: at most [count] of them, exactly [count] when the
    pages hold that many. The accumulator itself never grows past
    [count]: the loop over a page stops as soon as it is reached. *)
Theorem get_top_films_returns count k :
  1 <= count <= 150 ->
  (forall p, (1 <= p <= k)%nat -> page_cards p <> []) ->
  (count <= Z.of_nat (length (films_from 1 k))
   \/ (page_cards (S k) = [] /\ page_raises (S k) = None)) ->
  let films := take (Z.to_nat count) (films_from 1 k) in
  (exists net, forall fuel, (k < fuel)%nat ->
      get_top_films fuel count = Some (Returned films, net)
      /\ while_loop fuel count [] 1 [] = Some (Ok films, net))
  /\ Z.of_nat (length films) <= count
  /\ (count <= Z.of_nat (length (films_from 1 k)) ->
      Z.of_nat (length films) = count)
  /\ (forall cards acc, Z.of_nat (length acc) < count ->
      for_cards count cards acc
      = take (Z.to_nat count) (acc ++ omap _parse_film_card cards)).
Proof.
  intros Hcount Hlive Hend films.
  assert (forall i, (i < k)%nat -> page_cards (1 + i) <> []) as Hlive'.
  { intros i Hi. apply Hlive. lia. }
  repeat split.
  - destruct (decide (count <= Z.of_nat (length (films_from 1 k))))
      as [Hreach|Hshort].
    + destruct (while_loop_reach count k [] 1%nat)
        as (j & _ & _ & Hrun); [done | simpl; lia | done |].
      exists (page_url <$> seq 1 j). intros fuel Hfuel.
      rewrite get_top_films_eq, bool_decide_false by lia.
      rewrite Hrun by lia. simpl. subst films.
      by rewrite take_take, Nat.min_id.
    + destruct Hend as [Hreach|[Hstop Hquiet]]; [lia|].
      exists (page_url <$> seq 1 (S k)). intros fuel Hfuel.
      rewrite get_top_films_eq, bool_decide_false by lia.
      rewrite (while_loop_stop count k) by (done || simpl; lia).
      simpl. subst films. rewrite !take_ge by lia. done.
  - subst films. rewrite length_take. lia.
  - intros Hreach. subst films. rewrite length_take. lia.
  - intros cards acc. apply for_cards_take.
Qed.

(** C5. A count outside [1,150] makes [get_top_films] raise
    [ValueError] with no request sent, whatever the fuel. *)
Theorem count_out_of_range fuel count :
  count < 1 \/ count > 150 ->
  get_top_films fuel count
  = Some (Raised "ValueError" "Можно собрать от 1 до 150 фильмов", []).
Proof. intros Hout. by rewrite get_top_films_eq, bool_decide_true. Qed.

(** C6. When pages 1..k come with cards, hold fewer records than asked
    for, and the fetch of page k+1 fails, [get_top_films] returns
    exactly the records of pages 1..k (the truncation to [count] keeps
    them all), and the requests sent are those for pages 1..k+1, each
    once: the failed one is the last and is not repeated. *)
Theorem fetch_failure_stops count k :
  1 <= count <= 150 ->
  (forall p, (1 <= p <= k)%nat -> page_cards p <> []) ->
  Z.of_nat (length (films_from 1 k)) < count ->
  page_html (S k) = Ok None ->
  forall fuel, (k < fuel)%nat ->
    get_top_films fuel count
    = Some (Returned (films_from 1 k), page_url <$> seq 1 (S k))
    /\ take (Z.to_nat count) (films_from 1 k) = films_from 1 k
    /\ NoDup (page_url <$> seq 1 (S k)).
Proof.
  intros Hcount Hlive Hshort Hfail fuel Hfuel.
  assert (page_cards (S k) = []) as Hstop by by apply page_cards_failed.
  assert (page_raises (S k) = None) as Hquiet by by apply page_raises_failed.
  split; [|split].
  - rewrite get_top_films_eq, bool_decide_false by lia.
    rewrite (while_loop_stop count k); [| |done|done|simpl; lia|lia].
    + simpl. by rewrite take_ge by lia.
    + intros i Hi. apply Hlive. lia.
  - apply take_ge. lia.
  - apply page_urls_NoDup. lia.
Qed.

(** C2 (as amended). Every record [get_top_films] returns has a
    non-empty [url], an empty [director] and all eight fields of the
    record shape; it was parsed from a card of some page, and its [title]
    is the stripped text of the title element of that card, which is
    empty when that text is blank. *)
Theorem returned_records_shape fuel count films net :
  get_top_films fuel count = Some (Returned films, net) ->
  Forall (fun f =>
    url f <> "" /\ director f = ""
    /\ (vars f).*1 = ["title"; "original_title"; "year"; "rating";
                      "genres"; "country"; "url"; "director"]
    /\ exists page card t,
        card ∈ page_cards page
        /\ _parse_film_card card = Some f
        /\ select_one card title_selector = Ok (Some t)
        /\ title f = PyStr.strip (text t)) films.
Proof.
  apply get_top_films_Forall. intros page card f Hin Hparse.
  destruct (parse_Some _ _ Hparse)
    as (t & ot & details & r & u & h & Ht & _ & _ & _ & _ & _ & ->).
  simpl. split; [done|]. split; [done|]. split; [done|].
  by exists page, card, t.
Qed.

(** C10. Every record [get_top_films] returns was parsed from a card of
    some page, and its [url] is the base URL followed by the [href] of
    the link element of that card, whatever the [href] holds: the [url]
    always starts with the base URL. *)
Theorem returned_url_prefixed fuel count films net :
  get_top_films fuel count = Some (Returned films, net) ->
  Forall (fun f =>
    exists page card u h,
      card ∈ page_cards page
      /\ _parse_film_card card = Some f
      /\ select_one card url_selector = Ok (Some u)
      /\ attrs u !! "href" = Some h
      /\ url f = "https://kino.mail.ru" +:+ h
      /\ PyStr.startswith (url f) "https://kino.mail.ru" = true) films.
Proof.
  apply get_top_films_Forall. intros page card f Hin Hparse.
  destruct (parse_Some _ _ Hparse)
    as (t & ot & details & r & u & h & _ & _ & _ & _ & Hu & Hh & ->).
  exists page, card, u, h. repeat split; try done.
  unfold PyStr.startswith. simpl. clear. vm_compute. by destruct h.
Qed.

End Collector.

(** An empty body in place of a failed fetch changes nothing for the
    loop. *)
Lemma while_loop_empty_as_failed requests_get requests_get' BeautifulSoup :
  (forall url,
      (_get_page requests_get' url []).1 = (_get_page requests_get url []).1
      \/ ((_get_page requests_get' url []).1 = Ok None
          /\ (_get_page requests_get url []).1 = Ok (Some ""))) ->
  forall fuel count films page net,
    while_loop requests_get' BeautifulSoup fuel count films page net
    = while_loop requests_get BeautifulSoup fuel count films page net.
Proof.
  intros Hsame. induction fuel as [|fuel IH]; intros count films page net; simpl.
  { done. }
  case_bool_decide; [|done].
  rewrite (_get_page_eq requests_get'), (_get_page_eq requests_get).
  destruct (Hsame (page_url page)) as [-> | [-> ->]]; [|done].
  destruct (_get_page requests_get (page_url page) []).1 as [[html|]|e];
    [|done..].
  destruct (PyStr.is_empty html); [done|].
  destruct (BeautifulSoup html "lxml") as [soup|e]; [|done].
  destruct (soup_select _ _); [done|]. apply IH.
Qed.

(** C9. When pages 1..k come with cards, hold fewer records than asked
    for, and page k+1 is fetched with an empty body, [get_top_films]
    stops at that page and returns the records of pages 1..k; a site that
    differs only in that the fetch of page k+1 fails gives the very same
    outcome and requests. *)
Theorem empty_body_stops requests_get BeautifulSoup count k :
  1 <= count <= 150 ->
  (forall p, (1 <= p <= k)%nat -> page_cards requests_get BeautifulSoup p <> []) ->
  Z.of_nat (length (films_from requests_get BeautifulSoup 1 k)) < count ->
  page_html requests_get (S k) = Ok (Some "") ->
  forall fuel, (k < fuel)%nat ->
    get_top_films requests_get BeautifulSoup fuel count
    = Some (Returned (films_from requests_get BeautifulSoup 1 k),
            page_url <$> seq 1 (S k))
    /\ forall requests_get' : string -> py Response,
        (forall url, url <> page_url (S k) -> requests_get' url = requests_get url) ->
        page_html requests_get' (S k) = Ok None ->
        get_top_films requests_get' BeautifulSoup fuel count
        = get_top_films requests_get BeautifulSoup fuel count.
Proof.
  intros Hcount Hlive Hshort Hempty fuel Hfuel. split.
  - rewrite get_top_films_eq, bool_decide_false by lia.
    rewrite (while_loop_stop _ _ count k); [| |by apply page_cards_empty_body
                                            |by apply page_raises_empty_body
                                            |simpl; lia|lia].
    + simpl. by rewrite take_ge by lia.
    + intros i Hi. apply Hlive. lia.
  - intros requests_get' Hsame Hfail.
    rewrite !get_top_films_eq.
    rewrite (while_loop_empty_as_failed requests_get requests_get'); [done|].
    intros url. destruct (decide (url = page_url (S k))) as [->|Hne].
    + right. split; [apply Hfail | apply Hempty].
    + left. unfold _get_page. by rewrite Hsame.
Qed.

(** ** Claims on single cards *)

(** C3 (as amended). A card without title element, without link element,
    or whose link element has no [href], yields nothing. *)
Theorem missing_required_yields_nothing (card : Card) :
  select_one card title_selector = Ok None
  \/ select_one card url_selector = Ok None
  \/ (exists u, select_one card url_selector = Ok (Some u)
                /\ attrs u !! "href" = None) ->
  _parse_film_card card = None.
Proof.
  intros Hmissing.
  destruct (_parse_film_card card) as [f|] eqn:Hparse; [|done].
  apply parse_Some in Hparse
    as (t & ot & details & r & u & h & Ht & _ & _ & _ & Hu & Hh & _).
  destruct Hmissing as [Hno | [Hno | (u' & Hu' & Hno)]]; congruence.
Qed.

(** C4 (as amended). The detail links are read by position: [country] is
    the stripped text of link 0, [year] that of link 1, [genres] joins
    those of the links from 2 on, and a field whose position is beyond
    the links is the empty string; with exactly two links [genres] is
    empty, and [country] and [year] are as blank as the texts of the two
    links. No index error arises: when the [try] block raises, a query
    raised. *)
Theorem details_by_position (card : Card) (details : list Tag) :
  select card details_selector = Ok details ->
  (forall e, _parse_film_card_try card = Exc e ->
     exists sel, select_one card sel = Exc e \/ select card sel = Exc e)
  /\ forall f, _parse_film_card card = Some f ->
       country f = from_option (fun a => PyStr.strip (text a)) "" (details !! 0%nat)
       /\ year f = from_option (fun a => PyStr.strip (text a)) "" (details !! 1%nat)
       /\ genres f
          = PyStr.join ", " ((fun a => PyStr.strip (text a)) <$> drop 2 details)
       /\ ((length details <= 0)%nat -> country f = "")
       /\ ((length details <= 1)%nat -> year f = "")
       /\ ((length details <= 2)%nat -> genres f = "").
Proof.
  intros Hdetails. split.
  - intros e. unfold _parse_film_card_try. rewrite Hdetails.
    destruct (select_one card title_selector) as [[t|]|] eqn:Ht; simpl;
      [|done|intros [= <-]; eauto].
    destruct (select_one card original_title_selector) as [ot|] eqn:Hot; simpl;
      [|intros [= <-]; eauto].
    destruct details as [|d0 [|d1 [|d2 ds]]]; simpl;
      (destruct (select_one card rating_selector) as [r|] eqn:Hr; simpl;
         [|intros [= <-]; eauto]);
      (destruct (select_one card url_selector) as [[u|]|] eqn:Hu; simpl;
         [|done|intros [= <-]; eauto]);
      (case_bool_decide as Hh; [done|]);
      unfold py_getitem; by destruct (attrs u !! "href").
  - intros f Hparse.
    apply parse_Some in Hparse
      as (t & ot & details' & r & u & h & _ & _ & Hd & _ & _ & _ & ->).
    assert (details' = details) as -> by congruence. simpl.
    repeat split; [| |].
    + intros Hlen. by destruct details; simpl in *; [|lia].
    + intros Hlen. by destruct details as [|? [|? ?]]; simpl in *; [| |lia].
    + intros Hlen. rewrite drop_ge by done. done.
Qed.

(** C7. A raise inside the [try] block of [_parse_film_card] yields
    nothing for that card, and the loop over the page goes on as if the
    card were not there: the cards before and after it are read, and the
    accumulator ends with the records it had followed by the records of
    the cards before and after that parse, in card order, up to
    [count]. *)
Theorem card_failure_isolated (card : Card) (e : string) :
  _parse_film_card_try card = Exc e ->
  _parse_film_card card = None
  /\ (forall count before after films,
        for_cards count (before ++ card :: after) films
        = for_cards count (before ++ after) films)
  /\ forall count before after films,
       Z.of_nat (length films) < count ->
       for_cards count (before ++ card :: after) films
       = take (Z.to_nat count)
           (films ++ omap _parse_film_card before
                  ++ omap _parse_film_card after).
Proof.
  intros Hraise. pose proof (parse_Exc _ _ Hraise) as Hnone.
  split; [done|]. split; [intros; by apply for_cards_skip|].
  intros count before after films Hshort.
  rewrite for_cards_take by done. do 2 f_equal.
  rewrite omap_app. simpl. by rewrite Hnone.
Qed.

(** ** The claims on sample inputs *)

Import Examples.

(** The loop never ends on a site that has cards on every page and a
    title on none: with the endless site and a count of 1,
    [get_top_films] returns for no amount of fuel (C1 as stated fails
    there). *)
Lemma endless_loop_runs fuel : forall page net,
  while_loop endless_get endless_soup fuel 1 [] page net = None.
Proof.
  induction fuel as [|fuel IH]; intros page net; [done|].
  rewrite while_loop_next; [|done|done]. apply IH.
Qed.

Lemma get_top_films_never_returns :
  ~ exists fuel r, get_top_films endless_get endless_soup fuel 1 = Some r.
Proof.
  intros (fuel & r & Hrun). rewrite get_top_films_eq in Hrun. simpl in Hrun.
  by rewrite endless_loop_runs in Hrun.
Qed.

Lemma get_top_films_returns_witness :
  exists net, forall fuel, (2 < fuel)%nat ->
    get_top_films (site_get two_pages) (site_soup two_pages) fuel 3
    = Some (Returned [brat2_film; leon_film; alien_film], net).
Proof.
  destruct (get_top_films_returns (site_get two_pages) (site_soup two_pages) 3 2)
    as [[net Hrun] _].
  - lia.
  - intros p Hp. assert (p = 1 \/ p = 2)%nat as [-> | ->] by lia; by vm_compute.
  - left. vm_compute. discriminate.
  - exists net. intros fuel Hfuel. apply (Hrun fuel Hfuel).
Defined.

(** A blank title element gives a returned record with an empty title
    (C2 as stated fails there). *)
Lemma blank_title_returned :
  get_top_films (site_get blank_site) (site_soup blank_site) 2 1
  = Some (Returned
            [mkFilm "" "" "" "Н/Д" "" "" "https://kino.mail.ru/cinema/movies/y/" ""],
          ["https://kino.mail.ru/cinema/top/"]).
Proof. by vm_compute. Qed.

Lemma returned_records_shape_witness :
  Forall (fun f =>
    url f <> "" /\ director f = ""
    /\ (vars f).*1 = ["title"; "original_title"; "year"; "rating";
                      "genres"; "country"; "url"; "director"]
    /\ exists page card t,
        card ∈ page_cards (site_get two_pages) (site_soup two_pages) page
        /\ _parse_film_card card = Some f
        /\ select_one card title_selector = Ok (Some t)
        /\ title f = PyStr.strip (text t))
    [brat2_film; leon_film; alien_film].
Proof.
  apply (returned_records_shape (site_get two_pages) (site_soup two_pages) 3 3 _
           [page_url 1; page_url 2]).
  by vm_compute.
Defined.

(** An [href] that is no link still gives a record (C3 as stated fails
    there). *)
Lemma bad_href_kept :
  select_one bad_href url_selector = Ok (Some (anchor "" " <not a link> "))
  /\ _parse_film_card bad_href
     = Some (mkFilm "Stalker" "" "" "Н/Д" "" ""
               "https://kino.mail.ru <not a link> " "").
Proof. split; by vm_compute. Qed.

Lemma missing_required_yields_nothing_witness :
  _parse_film_card untitled = None
  /\ _parse_film_card unlinked = None
  /\ _parse_film_card no_href = None.
Proof.
  split; [|split].
  - apply (missing_required_yields_nothing untitled). left. reflexivity.
  - apply (missing_required_yields_nothing unlinked). right. left. reflexivity.
  - apply (missing_required_yields_nothing no_href). right. right.
    exists (span ""). split; reflexivity.
Defined.

(** Two detail links without text give an empty country and an empty
    year (C4 as stated fails there). *)
Lemma blank_details_empty :
  select blank_details details_selector
  = Ok [anchor "" "/a/"; anchor "  " "/b/"]
  /\ _parse_film_card blank_details
     = Some (mkFilm "Stalker" "" "" "Н/Д" "" ""
               "https://kino.mail.ru/cinema/movies/stalker/" "").
Proof. split; by vm_compute. Qed.

Lemma details_by_position_witness :
  country leon_film = "Франция" /\ year leon_film = "1994"
  /\ genres leon_film = "".
Proof.
  destruct (details_by_position leon
              [anchor "Франция" "/cinema/all/fra/"; anchor "1994" "/cinema/all/1994/"]
              eq_refl) as [_ Hfields].
  destruct (Hfields leon_film) as (Hc & Hy & Hg & _); [by vm_compute|].
  split; [|split].
  - rewrite Hc. by vm_compute.
  - rewrite Hy. by vm_compute.
  - rewrite Hg. by vm_compute.
Defined.

Lemma count_out_of_range_witness :
  get_top_films (site_get two_pages) (site_soup two_pages) 5 0
  = Some (Raised "ValueError" "Можно собрать от 1 до 150 фильмов", [])
  /\ get_top_films (site_get two_pages) (site_soup two_pages) 5 151
     = Some (Raised "ValueError" "Можно собрать от 1 до 150 фильмов", []).
Proof.
  split.
  - apply (count_out_of_range (site_get two_pages) (site_soup two_pages) 5 0). lia.
  - apply (count_out_of_range (site_get two_pages) (site_soup two_pages) 5 151). lia.
Defined.

Lemma fetch_failure_stops_witness :
  get_top_films (site_get failing_second) (site_soup failing_second) 5 5
  = Some (Returned [brat2_film; leon_film],
          ["https://kino.mail.ru/cinema/top/";
           "https://kino.mail.ru/cinema/top/?page=2"]).
Proof.
  destruct (fetch_failure_stops (site_get failing_second) (site_soup failing_second)
              5 1) with (fuel := 5%nat) as [Hrun _].
  - lia.
  - intros p Hp. assert (p = 1)%nat as -> by lia. by vm_compute.
  - vm_compute. reflexivity.
  - by vm_compute.
  - lia.
  - apply Hrun.
Defined.

Lemma card_failure_isolated_witness :
  _parse_film_card broken = None
  /\ for_cards 5 [brat2; broken; leon] [] = for_cards 5 [brat2; leon] []
  /\ for_cards 5 [brat2; broken; leon] [] = [brat2_film; leon_film].
Proof.
  destruct (card_failure_isolated broken "AttributeError")
    as (Hnone & Hskip & Hrecords).
  - by vm_compute.
  - split; [apply Hnone|]. split; [apply (Hskip 5 [brat2] [leon] [])|].
    etrans; [exact (Hrecords 5 [brat2] [leon] [] ltac:(simpl; lia))|].
    by vm_compute.
Defined.

Lemma empty_body_stops_witness :
  get_top_films (site_get empty_second) (site_soup empty_second) 5 5
  = Some (Returned [brat2_film; leon_film],
          ["https://kino.mail.ru/cinema/top/";
           "https://kino.mail.ru/cinema/top/?page=2"])
  /\ get_top_films (site_get failing_second) (site_soup empty_second) 5 5
     = get_top_films (site_get empty_second) (site_soup empty_second) 5 5.
Proof.
  destruct (empty_body_stops (site_get empty_second) (site_soup empty_second)
              5 1) with (fuel := 5%nat) as [Hrun Hsame].
  - lia.
  - intros p Hp. assert (p = 1)%nat as -> by lia. by vm_compute.
  - vm_compute. reflexivity.
  - by vm_compute.
  - lia.
  - split; [apply Hrun|]. apply Hsame; [|by vm_compute].
    intros url Hne. unfold site_get, failing_second, empty_second.
    cbn [answer_of].
    destruct (String.eqb (page_url 1) url); [done|].
    destruct (String.eqb (page_url 2) url) eqn:Heq; [|done].
    apply String.eqb_eq in Heq. congruence.
Defined.

Lemma returned_url_prefixed_witness :
  Forall (fun f =>
    exists page card u h,
      card ∈ page_cards (site_get absolute_site) (site_soup absolute_site) page
      /\ _parse_film_card card = Some f
      /\ select_one card url_selector = Ok (Some u)
      /\ attrs u !! "href" = Some h
      /\ url f = "https://kino.mail.ru" +:+ h
      /\ PyStr.startswith (url f) "https://kino.mail.ru" = true)
    [mkFilm "Stalker" "" "" "Н/Д" "" ""
       "https://kino.mail.ruhttps://example.org/stalker" ""; brat2_film].
Proof.
  apply (returned_url_prefixed (site_get absolute_site) (site_soup absolute_site)
           3 2 _ [page_url 1]).
  by vm_compute.
Defined.

(** ** Export to JSON and back *)

Section JsonRoundTrip.

Import Json.

Lemma str_app_nil (s : string) : "" +:+ s = s.
Proof. done. Qed.

Lemma str_app_cons (c : ascii) (s1 s2 : string) :
  String c s1 +:+ s2 = String c (s1 +:+ s2).
Proof. done. Qed.

Lemma str_app_assoc (s1 s2 s3 : string) :
  (s1 +:+ s2) +:+ s3 = s1 +:+ s2 +:+ s3.
Proof.
  induction s1 as [|c s1 IH]; [done|].
  by rewrite !str_app_cons, IH.
Qed.

Lemma str_length_app (s1 s2 : string) :
  String.length (s1 +:+ s2) = (String.length s1 + String.length s2)%nat.
Proof.
  induction s1 as [|c s1 IH]; [done|].
  rewrite str_app_cons. simpl. by rewrite IH.
Qed.

(** What the encoder writes for one character reads back as that
    character. *)
Lemma scanstring_escape_char (c : ascii) (s : string) :
  scanstring (escape_char c +:+ s)
  = '(str, tl) ← scanstring s; Ok (String c str, tl).
Proof. destruct c as [[] [] [] [] [] [] [] []]; reflexivity. Qed.

(** An encoded string, up to its closing quote, reads back as the
    string. *)
Lemma scanstring_escape (s rest : string) :
  scanstring (escape s +:+ String dquote rest) = Ok (s, rest).
Proof.
  induction s as [|c s IH]; [done|].
  cbn [escape]. rewrite str_app_assoc, scanstring_escape_char.
  by rewrite IH.
Qed.

Lemma skip_ws_cons_ws (c : ascii) (s : string) :
  is_ws c = true -> skip_ws (String c s) = skip_ws s.
Proof. intros Hc. simpl. by rewrite Hc. Qed.

Lemma skip_ws_cons_other (c : ascii) (s : string) :
  is_ws c = false -> skip_ws (String c s) = String c s.
Proof. intros Hc. simpl. by rewrite Hc. Qed.

Lemma skip_ws_spaces (n : nat) (c : ascii) (s : string) :
  is_ws c = false ->
  skip_ws (spaces n +:+ String c s) = String c s.
Proof.
  intros Hc. induction n as [|n IH].
  - change (skip_ws (String c s) = String c s). simpl. by rewrite Hc.
  - change (skip_ws (String " " (spaces n +:+ String c s)) = String c s).
    exact IH.
Qed.

Lemma skip_ws_newline_indent (level : nat) (c : ascii) (s : string) :
  is_ws c = false ->
  skip_ws (newline_indent level +:+ String c s) = String c s.
Proof.
  intros Hc.
  change (skip_ws (spaces (2 * level) +:+ String c s) = String c s).
  by apply skip_ws_spaces.
Qed.

(** The three scanners, one step each. *)
Lemma scan_once_dquote fuel s :
  scan_once (S fuel) (String dquote s)
  = '(str, rest) ← scanstring s; Ok (PStr str, rest).
Proof. done. Qed.

Lemma scan_once_lbrace fuel s :
  scan_once (S fuel) (String "{" s)
  = match skip_ws s with
    | String c' rest' =>
        if Ascii.eqb c' "}" then Ok (PDict [], rest')
        else if Ascii.eqb c' dquote then JSONObject fuel rest' []
        else Exc "Expecting property name enclosed in double quotes"
    | EmptyString => Exc "Expecting property name enclosed in double quotes"
    end.
Proof. done. Qed.

Lemma scan_once_lbracket fuel s :
  scan_once (S fuel) (String "[" s)
  = match skip_ws s with
    | String c' rest' =>
        if Ascii.eqb c' "]" then Ok (PList [], rest')
        else JSONArray fuel (String c' rest') []
    | EmptyString => Exc "Expecting value"
    end.
Proof. done. Qed.

Lemma JSONObject_eq fuel s pairs :
  JSONObject (S fuel) s pairs
  = '(key, s) ← scanstring s;
    match skip_ws s with
    | String c s =>
        if Ascii.eqb c ":" then
          '(value, s) ← scan_once fuel (skip_ws s);
          let pairs := pairs ++ [(key, value)] in
          match skip_ws s with
          | String c s =>
              if Ascii.eqb c "}" then Ok (PDict (dict_of_pairs pairs), s)
              else if Ascii.eqb c "," then
                match skip_ws s with
                | String c s =>
                    if Ascii.eqb c dquote then JSONObject fuel s pairs
                    else Exc "Expecting property name enclosed in double quotes"
                | EmptyString =>
                    Exc "Expecting property name enclosed in double quotes"
                end
              else Exc "Expecting ',' delimiter"
          | EmptyString => Exc "Expecting ',' delimiter"
          end
        else Exc "Expecting ':' delimiter"
    | EmptyString => Exc "Expecting ':' delimiter"
    end.
Proof. done. Qed.

Lemma JSONArray_eq fuel s values :
  JSONArray (S fuel) s values
  = '(value, s) ← scan_once fuel s;
    let values := values ++ [value] in
    match skip_ws s with
    | String c s =>
        if Ascii.eqb c "]" then Ok (PList values, s)
        else if Ascii.eqb c "," then JSONArray fuel (skip_ws s) values
        else Exc "Expecting ',' delimiter"
    | EmptyString => Exc "Expecting ',' delimiter"
    end.
Proof. done. Qed.

(** One item of a dictionary with a string value: the object loop
    reads the key and the value and stands at what follows. *)
Lemma JSONObject_item fuel k v tail acc :
  JSONObject (S (S fuel))
    (escape k +:+ String dquote
       (key_separator +:+ encode_basestring v +:+ tail)) acc
  = match skip_ws tail with
    | String c s =>
        if Ascii.eqb c "}"
        then Ok (PDict (dict_of_pairs (acc ++ [(k, PStr v)])), s)
        else if Ascii.eqb c "," then
          match skip_ws s with
          | String c s =>
              if Ascii.eqb c dquote
              then JSONObject (S fuel) s (acc ++ [(k, PStr v)])
              else Exc "Expecting property name enclosed in double quotes"
          | EmptyString =>
              Exc "Expecting property name enclosed in double quotes"
          end
        else Exc "Expecting ',' delimiter"
    | EmptyString => Exc "Expecting ',' delimiter"
    end.
Proof.
  rewrite JSONObject_eq, scanstring_escape. cbn [mbind py_bind].
  unfold key_separator, encode_basestring.
  rewrite !str_app_cons, str_app_nil.
  rewrite (skip_ws_cons_other ":") by done.
  change (Ascii.eqb ":" ":") with true. cbv iota.
  rewrite (skip_ws_cons_ws " ") by done.
  rewrite (skip_ws_cons_other dquote) by done.
  rewrite scan_once_dquote.
  rewrite str_app_assoc, str_app_cons, str_app_nil, scanstring_escape.
  done.
Qed.

(** The object loop reads the items of an encoded dictionary of
    strings, from the first key on. *)
Lemma JSONObject_fields (level : nat) : forall kvs k v acc fuel rest,
  (S (length kvs) < fuel)%nat ->
  JSONObject fuel
    (escape k +:+ String dquote
       (key_separator +:+ encode_basestring v
        +:+ encode_items (item_enc level) (separator level) (str_fields kvs)
        +:+ newline_indent level +:+ String "}" rest)) acc
  = Ok (PDict (dict_of_pairs (acc ++ (k, PStr v) :: str_fields kvs)), rest).
Proof.
  induction kvs as [|[k' v'] kvs IH]; intros k v acc fuel rest Hfuel;
    (destruct fuel as [|[|fuel]]; [simpl in Hfuel; lia..|]);
    rewrite JSONObject_item.
  - cbn [str_fields fmap list_fmap encode_items]. rewrite str_app_nil.
    by rewrite skip_ws_newline_indent.
  - cbn [str_fields fmap list_fmap encode_items].
    unfold separator at 1, item_separator, item_enc at 1.
    cbn [fst snd iterencode]. unfold encode_basestring at 1.
    rewrite !str_app_assoc, !str_app_cons, !str_app_nil.
    rewrite (skip_ws_cons_other ",") by done.
    change (Ascii.eqb "," "}") with false.
    change (Ascii.eqb "," ",") with true. cbv iota.
    rewrite skip_ws_newline_indent by done.
    change (Ascii.eqb dquote dquote) with true. cbv iota.
    rewrite !str_app_assoc, !str_app_cons, !str_app_nil.
    rewrite (IH k' v' _ (S fuel) rest) by (simpl in Hfuel; lia).
    by rewrite <- (assoc_L (++)).
Qed.

Ltac str_norm :=
  repeat (rewrite str_app_assoc || rewrite str_app_cons || rewrite str_app_nil).

(** An encoded dictionary of strings reads back as the dictionary. *)
Lemma scan_once_str_dict level k v kvs fuel rest :
  (S (S (length kvs)) < fuel)%nat ->
  scan_once fuel (iterencode (PDict ((k, PStr v) :: str_fields kvs)) level +:+ rest)
  = Ok (PDict (dict_of_pairs ((k, PStr v) :: str_fields kvs)), rest).
Proof.
  intros Hfuel. destruct fuel as [|fuel]; [lia|].
  assert (iterencode (PDict ((k, PStr v) :: str_fields kvs)) level +:+ rest
          = String "{"
              (newline_indent (S level) +:+ String dquote
                 (escape k +:+ String dquote
                    (key_separator +:+ encode_basestring v
                     +:+ encode_items (item_enc level) (separator level)
                           (str_fields kvs)
                     +:+ newline_indent level +:+ String "}" rest)))) as ->.
  { change (iterencode (PDict ((k, PStr v) :: str_fields kvs)) level)
      with ("{" +:+ newline_indent (S level)
            +:+ encode_basestring k +:+ key_separator +:+ encode_basestring v
            +:+ encode_items (item_enc level) (separator level) (str_fields kvs)
            +:+ newline_indent level +:+ "}").
    unfold encode_basestring at 1. by str_norm. }
  rewrite scan_once_lbrace, skip_ws_newline_indent by done.
  change (Ascii.eqb dquote "}") with false.
  change (Ascii.eqb dquote dquote) with true. cbv iota.
  by rewrite JSONObject_fields by lia.
Qed.

Lemma vars_str_fields (f : Film) :
  vars f
  = ("title", PStr (title f))
    :: str_fields [("original_title", original_title f); ("year", year f);
                   ("rating", rating f); ("genres", genres f);
                   ("country", country f); ("url", url f);
                   ("director", director f)].
Proof. done. Qed.

(** What [dict(pairs)] makes of the pairs of a record: themselves. *)
Lemma dict_of_pairs_vars (f : Film) : dict_of_pairs (vars f) = vars f.
Proof. done. Qed.

(** An encoded record reads back as the dictionary of its fields. *)
Lemma scan_once_film level (f : Film) fuel rest :
  (9 < fuel)%nat ->
  scan_once fuel (iterencode (PDict (vars f)) level +:+ rest)
  = Ok (PDict (vars f), rest).
Proof.
  intros Hfuel. rewrite <- (dict_of_pairs_vars f) at 2.
  rewrite vars_str_fields. apply scan_once_str_dict. simpl. lia.
Qed.

Lemma iterencode_film_head level (f : Film) :
  exists t, iterencode (PDict (vars f)) level = String "{" t.
Proof. eexists. reflexivity. Qed.

Lemma skip_ws_before_film n level (f : Film) rest :
  skip_ws (newline_indent n +:+ iterencode (PDict (vars f)) level +:+ rest)
  = iterencode (PDict (vars f)) level +:+ rest.
Proof.
  destruct (iterencode_film_head level f) as [t ->].
  rewrite str_app_cons. by apply skip_ws_newline_indent.
Qed.

(** The array loop reads the encoded records, from the first one on. *)
Lemma JSONArray_films (level : nat) : forall films f acc fuel rest,
  (length films + 10 < fuel)%nat ->
  JSONArray fuel
    (iterencode (PDict (vars f)) (S level)
     +:+ encode_items (fun y => iterencode y (S level)) (separator level)
           (film_objs films)
     +:+ newline_indent level +:+ String "]" rest) acc
  = Ok (PList (acc ++ film_objs (f :: films)), rest).
Proof.
  induction films as [|f' films IH]; intros f acc fuel rest Hfuel;
    (destruct fuel as [|fuel]; [lia|]); simpl in Hfuel;
    rewrite JSONArray_eq, scan_once_film by lia; cbn [mbind py_bind].
  - cbn [film_objs fmap list_fmap encode_items]. rewrite str_app_nil.
    by rewrite skip_ws_newline_indent.
  - cbn [film_objs fmap list_fmap encode_items].
    unfold separator at 1, item_separator.
    rewrite !str_app_assoc, str_app_cons, str_app_nil.
    rewrite (skip_ws_cons_other ",") by done.
    change (Ascii.eqb "," "]") with false.
    change (Ascii.eqb "," ",") with true. cbv iota.
    rewrite skip_ws_before_film.
    rewrite (IH f' _ fuel rest) by lia.
    by rewrite <- (assoc_L (++)).
Qed.

Lemma length_encode_items {A} (enc : A -> string) (sep : string) (l : list A) :
  (1 <= String.length sep)%nat ->
  (length l <= String.length (encode_items enc sep l))%nat.
Proof.
  intros Hsep. induction l as [|y l IH]; simpl; [lia|].
  rewrite !str_length_app. lia.
Qed.

(** Reading back what [json.dump] wrote for a list of records gives the
    list of their dictionaries. *)
Lemma loads_dumps_films (films : list Film) :
  loads (dumps (PList (film_objs films))) = Ok (PList (film_objs films)).
Proof.
  destruct films as [|f films]; [done|].
  unfold loads, dumps.
  set (doc := iterencode (PList (film_objs (f :: films))) 0).
  assert (doc = String "["
                  (newline_indent 1 +:+ iterencode (PDict (vars f)) 1
                   +:+ encode_items (fun y => iterencode y 1) (separator 0)
                         (film_objs films)
                   +:+ newline_indent 0 +:+ String "]" "")) as Hdoc.
  { subst doc.
    change (iterencode (PList (film_objs (f :: films))) 0)
      with ("[" +:+ newline_indent 1 +:+ iterencode (PDict (vars f)) 1
            +:+ encode_items (fun y => iterencode y 1) (separator 0)
                  (film_objs films)
            +:+ newline_indent 0 +:+ "]").
    by rewrite str_app_cons, str_app_nil. }
  assert (length films + 5 <= String.length doc)%nat as Hlen.
  { rewrite Hdoc. cbn [String.length]. rewrite !str_length_app.
    pose proof (length_encode_items (fun y => iterencode y 1) (separator 0)
                  (film_objs films)) as Hitems.
    unfold film_objs in Hitems at 1. rewrite length_fmap in Hitems.
    specialize (Hitems ltac:(simpl; lia)).
    cbn [newline_indent String.length spaces Nat.mul Nat.add]. lia. }
  assert (exists fuel, (2 * String.length doc + 2 = S fuel
                        /\ length films + 10 < fuel)%nat)
    as (fuel & -> & Hfuel)
    by (exists (2 * String.length doc + 1)%nat; split; lia).
  clear Hlen. rewrite Hdoc. clear doc Hdoc.
  rewrite (skip_ws_cons_other "[") by done.
  rewrite scan_once_lbracket, skip_ws_before_film.
  destruct (iterencode_film_head 1 f) as [t Ht].
  rewrite Ht at 1. rewrite str_app_cons.
  change (Ascii.eqb "{" "]") with false. cbv iota.
  rewrite <- str_app_cons, <- Ht.
  rewrite (JSONArray_films 0) by lia.
  done.
Qed.

(** *** Writing the document *)

Lemma has_surrogate_cons (a : ascii) (s : string) :
  has_surrogate (String a s)
  = (nat_of_ascii a =? 237)%nat && starts_A0_BF s || has_surrogate s.
Proof. done. Qed.

(** What the encoder writes for a character starts in A0..BF exactly
    when the character is in A0..BF. *)
Lemma starts_A0_BF_escape_char (c : ascii) (s t : string) :
  starts_A0_BF (escape_char c +:+ s) = starts_A0_BF (String c t).
Proof. destruct c as [[] [] [] [] [] [] [] []]; reflexivity. Qed.

Lemma has_surrogate_escape_char (c : ascii) (s t : string) :
  starts_A0_BF s = starts_A0_BF t ->
  has_surrogate (escape_char c +:+ s)
  = (nat_of_ascii c =? 237)%nat && starts_A0_BF t || has_surrogate s.
Proof.
  intros Hst.
  destruct c as [[] [] [] [] [] [] [] []]; try reflexivity.
  change (has_surrogate (String "237" s)
          = starts_A0_BF t || has_surrogate s).
  by rewrite has_surrogate_cons, Hst.
Qed.

Lemma starts_A0_BF_escape (s r : string) :
  starts_A0_BF (escape s +:+ String dquote r) = starts_A0_BF s.
Proof.
  destruct s as [|c s]; [done|].
  cbn [escape]. rewrite str_app_assoc.
  apply starts_A0_BF_escape_char.
Qed.

(** Escaping neither hides nor makes a lone surrogate. *)
Lemma has_surrogate_escape (s r : string) :
  has_surrogate (escape s +:+ String dquote r)
  = has_surrogate s || has_surrogate r.
Proof.
  induction s as [|c s IH]; [done|].
  cbn [escape]. rewrite str_app_assoc.
  rewrite (has_surrogate_escape_char c _ s) by apply starts_A0_BF_escape.
  rewrite IH, has_surrogate_cons. by rewrite orb_assoc.
Qed.

Lemma has_surrogate_encode_basestring (s : string) :
  has_surrogate (encode_basestring s) = has_surrogate s.
Proof.
  unfold encode_basestring. rewrite has_surrogate_cons, has_surrogate_escape.
  simpl. by rewrite orb_false_r.
Qed.

Lemma has_surrogate_spaces (n : nat) : has_surrogate (spaces n) = false.
Proof.
  induction n as [|n IH]; [done|].
  change (has_surrogate (String " " (spaces n)) = false).
  by rewrite has_surrogate_cons, IH.
Qed.

Lemma has_surrogate_newline_indent (level : nat) :
  has_surrogate (newline_indent level) = false.
Proof.
  unfold newline_indent. rewrite has_surrogate_cons.
  by rewrite has_surrogate_spaces.
Qed.

Lemma has_surrogate_separator (level : nat) :
  has_surrogate (separator level) = false.
Proof.
  change (has_surrogate (String "," (newline_indent (S level))) = false).
  by rewrite has_surrogate_cons, has_surrogate_newline_indent.
Qed.

(** Chunks without a lone surrogate are all written, one after the
    other. *)
Lemma write_chunks_clean (chunks : list string) (written : string) :
  Forall (fun chunk => has_surrogate chunk = false) chunks ->
  write_chunks chunks written
  = (None, written +:+ foldr String.append "" chunks).
Proof.
  intros Hclean. revert written.
  induction Hclean as [|chunk chunks Hchunk _ IH]; intros written; simpl.
  - f_equal. clear. induction written as [|a w IH]; [done|].
    by rewrite str_app_cons, <- IH.
  - rewrite Hchunk, IH. by rewrite str_app_assoc.
Qed.

(** The chunks of a record, and of a list of records. *)
Lemma chunks_film (f : Film) (level : nat) :
  iterencode_chunks (PDict (vars f)) level
  = ["{"; newline_indent (S level);
     encode_basestring "title"; key_separator;
     encode_basestring (title f);
     separator level; encode_basestring "original_title"; key_separator;
     encode_basestring (original_title f);
     separator level; encode_basestring "year"; key_separator;
     encode_basestring (year f);
     separator level; encode_basestring "rating"; key_separator;
     encode_basestring (rating f);
     separator level; encode_basestring "genres"; key_separator;
     encode_basestring (genres f);
     separator level; encode_basestring "country"; key_separator;
     encode_basestring (country f);
     separator level; encode_basestring "url"; key_separator;
     encode_basestring (url f);
     separator level; encode_basestring "director"; key_separator;
     encode_basestring (director f);
     newline_indent level; "}"].
Proof. done. Qed.

Lemma chunks_films (f : Film) (films : list Film) :
  iterencode_chunks (PList (film_objs (f :: films))) 0
  = ("[" +:+ newline_indent 1)
    :: iterencode_chunks (PDict (vars f)) 1
    ++ flat_map (fun g => separator 0 :: iterencode_chunks (PDict (vars g)) 1)
         films
    ++ [newline_indent 0; "]"].
Proof.
  change (iterencode_chunks (PList (film_objs (f :: films))) 0)
    with (("[" +:+ newline_indent 1)
          :: iterencode_chunks (PDict (vars f)) 1
          ++ flat_map
               (fun y => match y with
                         | PList _ | PDict _ =>
                             separator 0 :: iterencode_chunks y 1
                         | _ => [separator 0 +:+ iterencode y 1]
                         end)
               (film_objs films)
          ++ [newline_indent 0; "]"]).
  do 3 f_equal. induction films as [|g films IH]; [done|].
  simpl. by rewrite IH.
Qed.

Lemma film_chunks_clean (f : Film) (level : nat) :
  encodable f = true ->
  Forall (fun chunk => has_surrogate chunk = false)
    (iterencode_chunks (PDict (vars f)) level).
Proof.
  unfold encodable. rewrite negb_true_iff, !orb_false_iff.
  intros (((((((Ht & Ho) & Hy) & Hr) & Hg) & Hc) & Hu) & Hd).
  rewrite chunks_film.
  repeat (apply Forall_cons; split);
    rewrite ?has_surrogate_encode_basestring, ?has_surrogate_separator,
      ?has_surrogate_newline_indent; done.
Qed.

Lemma film_chunks_concat (f : Film) (level : nat) :
  foldr String.append "" (iterencode_chunks (PDict (vars f)) level)
  = iterencode (PDict (vars f)) level.
Proof.
  rewrite chunks_film.
  change (iterencode (PDict (vars f)) level)
    with ("{" +:+ newline_indent (S level)
          +:+ encode_basestring "title" +:+ key_separator
          +:+ encode_basestring (title f)
          +:+ encode_items (item_enc level) (separator level)
                (str_fields
                   [("original_title", original_title f); ("year", year f);
                    ("rating", rating f); ("genres", genres f);
                    ("country", country f); ("url", url f);
                    ("director", director f)])
          +:+ newline_indent level +:+ "}").
  cbn [foldr str_fields fmap list_fmap encode_items fst snd].
  unfold item_enc. cbn [fst snd iterencode].
  rewrite !str_app_assoc. by rewrite !str_app_nil.
Qed.

Lemma concat_chunks_app (l1 l2 : list string) :
  foldr String.append "" (l1 ++ l2)
  = foldr String.append "" l1 +:+ foldr String.append "" l2.
Proof.
  induction l1 as [|c l1 IH]; [done|].
  change (c +:+ foldr String.append "" (l1 ++ l2)
          = (c +:+ foldr String.append "" l1) +:+ foldr String.append "" l2).
  by rewrite IH, str_app_assoc.
Qed.

Lemma more_films_chunks_concat (films : list Film) :
  foldr String.append ""
    (flat_map (fun g => separator 0 :: iterencode_chunks (PDict (vars g)) 1)
       films)
  = encode_items (fun y => iterencode y 1) (separator 0) (film_objs films).
Proof.
  induction films as [|g films IH]; [done|].
  change (separator 0
          +:+ foldr String.append ""
                (iterencode_chunks (PDict (vars g)) 1
                 ++ flat_map
                      (fun g => separator 0
                                :: iterencode_chunks (PDict (vars g)) 1)
                      films)
          = separator 0 +:+ iterencode (PDict (vars g)) 1
            +:+ encode_items (fun y => iterencode y 1) (separator 0)
                  (film_objs films)).
  by rewrite concat_chunks_app, film_chunks_concat, IH.
Qed.

(** When UTF-8 can encode every record, all the chunks of the list are
    written, and what is written is the document of [json.dumps]. *)
Lemma write_chunks_films (films : list Film) :
  Forall (fun f => encodable f = true) films ->
  write_chunks (iterencode_chunks (PList (film_objs films)) 0) ""
  = (None, dumps (PList (film_objs films))).
Proof.
  intros Hfilms. destruct Hfilms as [|f films Hf Hfilms]; [done|].
  rewrite write_chunks_clean.
  - f_equal. rewrite str_app_nil, chunks_films. unfold dumps.
    change (iterencode (PList (film_objs (f :: films))) 0)
      with ("[" +:+ newline_indent 1 +:+ iterencode (PDict (vars f)) 1
            +:+ encode_items (fun y => iterencode y 1) (separator 0)
                  (film_objs films)
            +:+ newline_indent 0 +:+ "]").
    change (("[" +:+ newline_indent 1)
            +:+ foldr String.append ""
                  (iterencode_chunks (PDict (vars f)) 1
                   ++ flat_map
                        (fun g => separator 0
                                  :: iterencode_chunks (PDict (vars g)) 1)
                        films
                   ++ [newline_indent 0; "]"])
            = "[" +:+ newline_indent 1 +:+ iterencode (PDict (vars f)) 1
              +:+ encode_items (fun y => iterencode y 1) (separator 0)
                    (film_objs films)
              +:+ newline_indent 0 +:+ "]").
    rewrite !concat_chunks_app, film_chunks_concat, more_films_chunks_concat.
    cbn [foldr]. by rewrite !str_app_assoc.
  - rewrite chunks_films. apply Forall_cons. split.
    { change (has_surrogate (String "[" (newline_indent 1)) = false).
      by rewrite has_surrogate_cons, has_surrogate_newline_indent. }
    apply Forall_app. split; [by apply film_chunks_clean|].
    apply Forall_app. split.
    + induction Hfilms as [|g films Hg _ IH]; [done|].
      cbn [flat_map]. apply Forall_app. split; [|done].
      apply Forall_cons. split; [apply has_surrogate_separator|].
      by apply film_chunks_clean.
    + repeat (apply Forall_cons; split);
        rewrite ?has_surrogate_newline_indent; done.
Qed.

(** A chunk with a lone surrogate stops the writing. *)
Lemma write_chunks_dirty (chunks : list string) (written : string) :
  Exists (fun chunk => has_surrogate chunk = true) chunks ->
  (write_chunks chunks written).1 = Some "UnicodeEncodeError".
Proof.
  revert written. induction chunks as [|chunk chunks IH]; intros written Hd.
  - by apply Exists_nil in Hd.
  - simpl. destruct (has_surrogate chunk) eqn:Hchunk; [done|].
    apply IH. apply Exists_cons in Hd as [Hd|Hd]; [congruence|done].
Qed.

Lemma film_chunks_dirty (f : Film) (level : nat) :
  encodable f = false ->
  Exists (fun chunk => has_surrogate chunk = true)
    (iterencode_chunks (PDict (vars f)) level).
Proof.
  unfold encodable. rewrite negb_false_iff, !orb_true_iff.
  rewrite chunks_film, !Exists_cons, !has_surrogate_encode_basestring.
  tauto.
Qed.

Lemma films_chunks_dirty (films : list Film) :
  Exists (fun f => encodable f = false) films ->
  Exists (fun chunk => has_surrogate chunk = true)
    (iterencode_chunks (PList (film_objs films)) 0).
Proof.
  intros Hfilms. destruct films as [|f films]; [by apply Exists_nil in Hfilms|].
  rewrite chunks_films. apply Exists_cons. right.
  apply Exists_app. apply Exists_cons in Hfilms as [Hf|Hfilms].
  { left. by apply film_chunks_dirty. }
  right. apply Exists_app. left.
  induction Hfilms as [g films Hg|g films _ IH]; cbn [flat_map].
  - apply Exists_cons. right. apply Exists_app. left.
    by apply film_chunks_dirty.
  - apply Exists_cons. right. apply Exists_app. by right.
Qed.

(** C8 (as amended). When the file can be opened for writing and no text
    of the records holds a lone surrogate, saving the records as JSON
    raises nothing, and reading the file back gives as many objects as
    there were records, each with the eight field names in the order of
    the record and the very strings of its fields. Every byte of a
    non-ASCII character is written as it is. *)
Theorem json_round_trip (refused : string -> option string)
    (films : list Film) (filename : string) (fs : gmap string string) :
  refused filename = None ->
  Forall (fun f => encodable f = true) films ->
  exists fs',
    save_to_json refused films filename fs = (None, fs')
    /\ json_load fs' filename
       = Ok (PList
               ((fun f =>
                   PDict [("title", PStr (title f));
                          ("original_title", PStr (original_title f));
                          ("year", PStr (year f));
                          ("rating", PStr (rating f));
                          ("genres", PStr (genres f));
                          ("country", PStr (country f));
                          ("url", PStr (url f));
                          ("director", PStr (director f))]) <$> films))
    /\ length (film_objs films) = length films
    /\ forall c, (nat_of_ascii c < 128)%nat \/ escape_char c = String c "".
Proof.
  intros Hopen Hfilms. unfold save_to_json. rewrite Hopen.
  rewrite write_chunks_films by done.
  eexists. split; [done|]. split; [|split].
  - unfold json_load. rewrite lookup_insert_eq.
    apply loads_dumps_films.
  - apply length_fmap.
  - intros c. destruct c as [[] [] [] [] [] [] [] []];
      (by right) || (left; vm_compute; lia).
Qed.

End JsonRoundTrip.

(** ** More on the collector *)

Lemma films_from_app requests_get BeautifulSoup (page a b : nat) :
  films_from requests_get BeautifulSoup page (a + b)
  = films_from requests_get BeautifulSoup page a
    ++ films_from requests_get BeautifulSoup (page + a) b.
Proof.
  revert page. induction a as [|a IH]; intros page; simpl.
  - by rewrite Nat.add_0_r.
  - rewrite IH, <- (assoc_L (++)).
    by replace (S page + a)%nat with (page + S a)%nat by lia.
Qed.

Lemma page_films_stop requests_get BeautifulSoup (page : nat) :
  page_cards requests_get BeautifulSoup page = [] ->
  page_films requests_get BeautifulSoup page = [].
Proof. unfold page_films. by intros ->. Qed.

Section CollectorRuns.

Variable requests_get : string -> py Response.
Variable BeautifulSoup : string -> string -> py Soup.

Local Abbreviation while_loop := (while_loop requests_get BeautifulSoup).
Local Abbreviation get_top_films := (get_top_films requests_get BeautifulSoup).
Local Abbreviation page_cards := (page_cards requests_get BeautifulSoup).
Local Abbreviation page_raises := (page_raises requests_get BeautifulSoup).
Local Abbreviation page_films := (page_films requests_get BeautifulSoup).
Local Abbreviation films_from := (films_from requests_get BeautifulSoup).

Implicit Types (count : Z) (films : list Film) (net : list string).

(** What a run of the loop that ends has done: it asked for [j]
    consecutive pages, all but the last with cards and each asked for
    while records were still missing, and it holds the first [count]
    records of these pages. *)
Lemma while_loop_run count fuel : forall films page net films' net',
  Z.of_nat (length films) <= count ->
  while_loop fuel count films page net = Some (Ok films', net') ->
  exists j, (j <= fuel)%nat
    /\ net' = net ++ (page_url <$> seq page j)
    /\ films' = take (Z.to_nat count) (films ++ films_from page j)
    /\ (forall i, (S i < j)%nat -> page_cards (page + i) <> [])
    /\ (forall i, (i < j)%nat ->
          Z.of_nat (length (films ++ films_from page i)) < count)
    /\ (j = 0%nat -> count <= Z.of_nat (length films))
    /\ ((0 < j)%nat ->
        page_cards (page + (j - 1)) = []
        \/ count <= Z.of_nat (length (films ++ films_from page j)))
    /\ (forall i, (i < j)%nat -> page_raises (page + i) = None).
Proof.
  induction fuel as [|fuel IH]; intros films page net films' net' Hlen Hrun.
  - simpl in Hrun. case_bool_decide as Hshort; [done|].
    injection Hrun as <- <-. exists 0%nat. simpl.
    rewrite !app_nil_r, take_ge by lia.
    repeat split; (done || lia || (intros; lia)).
  - destruct (decide (count <= Z.of_nat (length films))) as [Hfull|Hshort].
    { rewrite while_loop_full in Hrun by done. injection Hrun as <- <-.
      exists 0%nat. simpl. rewrite !app_nil_r, take_ge by lia.
      repeat split; (done || lia || (intros; lia)). }
    destruct (decide (page_cards page = [])) as [Hstop|Hlive].
    { destruct (page_raises page) as [e|] eqn:Hquiet.
      { by rewrite (while_loop_raise_here _ _ _ _ _ _ _ e) in Hrun
          by (done || lia). }
      rewrite while_loop_stop_here in Hrun by (done || lia).
      injection Hrun as <- <-. exists 1%nat. simpl.
      rewrite page_films_stop by done. simpl.
      rewrite !app_nil_r, take_ge by lia.
      split; [lia|]. split; [done|]. split; [done|].
      split; [intros i Hi; lia|].
      split; [intros i Hi; replace i with 0%nat by lia; simpl;
              rewrite app_nil_r; lia|].
      split; [done|]. split; [intros _; left; by rewrite Nat.add_0_r|].
      intros i Hi. replace i with 0%nat by lia. by rewrite Nat.add_0_r. }
    rewrite while_loop_next in Hrun by (done || lia).
    rewrite for_cards_take in Hrun by lia. fold (page_films page) in Hrun.
    apply IH in Hrun
      as (j & Hj & -> & -> & Hcards & Hmin & Hzero & Hend & Hquiet);
      [|rewrite length_take; lia].
    exists (S j). split; [lia|].
    split; [simpl; by rewrite <- (assoc_L (++))|].
    split; [simpl; by rewrite take_take_app, <- (assoc_L (++))|].
    split; [|split; [|split; [done|split]]].
    4:{ intros [|i] Hi.
        - rewrite Nat.add_0_r. by apply page_cards_no_raise.
        - replace (page + S i)%nat with (S page + i)%nat by lia.
          apply Hquiet. lia. }
    + intros [|i] Hi; [by rewrite Nat.add_0_r|].
      replace (page + S i)%nat with (S page + i)%nat by lia.
      apply Hcards. lia.
    + intros [|i] Hi; simpl; [rewrite app_nil_r; lia|].
      specialize (Hmin i ltac:(lia)).
      rewrite !length_app, length_take, length_app in *. lia.
    + intros _. destruct (decide (j = 0%nat)) as [->|Hj0].
      * right. specialize (Hzero eq_refl). simpl.
        rewrite length_take in Hzero. rewrite app_nil_r. lia.
      * destruct (Hend ltac:(lia)) as [Hstop|Hreach].
        -- left. by replace (page + (S j - 1))%nat
             with (S page + (j - 1))%nat by lia.
        -- right. simpl.
           rewrite !length_app, length_take, length_app in *. lia.
Qed.

(** The same for [get_top_films], which starts at page 1 with no
    record. *)
Lemma get_top_films_run fuel count films net :
  get_top_films fuel count = Some (Returned films, net) ->
  1 <= count
  /\ exists j, (0 < j <= fuel)%nat
    /\ net = page_url <$> seq 1 j
    /\ films = take (Z.to_nat count) (films_from 1 j)
    /\ (forall i, (S i < j)%nat -> page_cards (1 + i) <> [])
    /\ (forall i, (i < j)%nat -> Z.of_nat (length (films_from 1 i)) < count)
    /\ (page_cards (1 + (j - 1)) = []
        \/ count <= Z.of_nat (length (films_from 1 j))).
Proof.
  rewrite get_top_films_eq. case_bool_decide as Hrange; [done|].
  destruct (while_loop fuel count [] 1 []) as [[[films'|e] net']|] eqn:Hrun;
    [|done..].
  intros [= <- <-]. split; [lia|].
  apply while_loop_run in Hrun
    as (j & Hj & -> & -> & Hcards & Hmin & Hzero & Hend & _); [|simpl; lia].
  assert (j <> 0%nat) as Hj0.
  { intros ->. specialize (Hzero eq_refl). simpl in Hzero. lia. }
  exists j. split; [lia|]. split; [done|].
  split; [simpl; by rewrite take_take, Nat.min_id|].
  split; [done|]. split; [done|]. apply Hend. lia.
Qed.

(** X1. Every run of [get_top_films] that returns asked for pages 1..j
    for some j >= 1, in this order: all of them but the last came with
    cards and were asked for while records were still missing, the last
    one either has no cards or completes the count, and the list
    returned is the first [count] records of these pages. *)
Theorem returned_run fuel count films net :
  get_top_films fuel count = Some (Returned films, net) ->
  exists j, (1 <= j <= fuel)%nat
    /\ net = page_url <$> seq 1 j
    /\ films = take (Z.to_nat count) (films_from 1 j)
    /\ (forall p, (1 <= p < j)%nat ->
          page_cards p <> [] /\ Z.of_nat (length (films_from 1 p)) < count)
    /\ (page_cards j = [] \/ count <= Z.of_nat (length (films_from 1 j))).
Proof.
  intros Hrun.
  apply get_top_films_run in Hrun
    as (_ & j & Hj & Hnet & Hfilms & Hcards & Hmin & Hend).
  exists j. split; [lia|]. split; [done|]. split; [done|]. split.
  - intros p Hp. split.
    + replace p with (1 + (p - 1))%nat by lia. apply Hcards. lia.
    + apply (Hmin p). lia.
  - by replace j with (1 + (j - 1))%nat at 1 by lia.
Qed.

(** X2. A run that returns has sent at least one request and at most as
    many as the loop made turns; the first one is for the listing URL
    without page parameter, and no URL is requested twice. *)
Theorem returned_requests fuel count films net :
  get_top_films fuel count = Some (Returned films, net) ->
  head net = Some "https://kino.mail.ru/cinema/top/"
  /\ (1 <= length net <= fuel)%nat
  /\ NoDup net.
Proof.
  intros (_ & j & Hj & -> & _)%get_top_films_run.
  rewrite length_fmap, length_seq. split; [|split; [lia|]].
  - destruct j as [|j]; [lia|]. done.
  - apply page_urls_NoDup. lia.
Qed.

(** X3. A run returns fewer records than asked for only when the last
    page it requested gave no cards (failed fetch, empty body, or a
    document without cards). *)
Theorem short_result_means_stop fuel count films net :
  get_top_films fuel count = Some (Returned films, net) ->
  Z.of_nat (length films) < count ->
  page_cards (length net) = [].
Proof.
  intros (_ & j & Hj & -> & -> & _ & _ & Hend)%get_top_films_run Hshort.
  rewrite length_fmap, length_seq.
  destruct Hend as [Hstop|Hreach].
  - by replace j with (1 + (j - 1))%nat by lia.
  - rewrite length_take in Hshort. lia.
Qed.

(** X4. Asking for fewer films gives a prefix of what asking for more
    gives: when the runs for [n <= m] both return, the records for [n]
    are the first [n] of those for [m], and the requests for [n] are the
    first of those for [m]. *)
Theorem fewer_is_prefix fuel fuel' (n m : Z) films films' net net' :
  n <= m ->
  get_top_films fuel n = Some (Returned films, net) ->
  get_top_films fuel' m = Some (Returned films', net') ->
  films = take (Z.to_nat n) films' /\ net `prefix_of` net'.
Proof.
  intros Hnm Hn Hm.
  apply get_top_films_run in Hn
    as (Hn1 & j & Hj & -> & -> & Hlive & Hmin & Hend).
  apply get_top_films_run in Hm
    as (_ & j' & Hj' & -> & -> & Hlive' & Hmin' & Hend').
  destruct (decide (j = j')) as [<-|Hne].
  { split; [|done]. rewrite take_take. f_equal. lia. }
  destruct (decide (j < j')%nat) as [Hlt|Hgt].
  - pose proof (Hlive' (j - 1)%nat ltac:(lia)) as Hcards.
    pose proof (Hmin' j ltac:(lia)) as Hless.
    destruct Hend as [Hstop|Hreach]; [done|].
    replace j' with (j + (j' - j))%nat by lia.
    rewrite films_from_app, seq_app, fmap_app. split.
    + rewrite take_take, take_app_le by lia. f_equal. lia.
    + by apply prefix_app_r.
  - pose proof (Hlive (j' - 1)%nat ltac:(lia)) as Hcards.
    pose proof (Hmin j' ltac:(lia)) as Hless.
    destruct Hend' as [Hstop|Hreach]; [done|lia].
Qed.

End CollectorRuns.

(** ** Stripped text *)

Section Strip.

Import PyStr.

Lemma lstrip_cons (a : ascii) (s1 : string) :
  lstrip (String a s1)
  = if is_space1 a then lstrip s1
    else match s1 with
         | EmptyString => String a s1
         | String b s2 =>
             if is_space2 a b then lstrip s2
             else match s2 with
                  | EmptyString => String a s1
                  | String c s3 =>
                      if is_space3 a b c then lstrip s3 else String a s1
                  end
         end.
Proof. done. Qed.

Lemma lstrip_rev_cons (a : ascii) (s1 : list ascii) :
  lstrip_rev (a :: s1)
  = if is_space1 a then lstrip_rev s1
    else match s1 with
         | [] => a :: s1
         | b :: s2 =>
             if is_space2 b a then lstrip_rev s2
             else match s2 with
                  | [] => a :: s1
                  | c :: s3 =>
                      if is_space3 c b a then lstrip_rev s3 else a :: s1
                  end
         end.
Proof. done. Qed.

(** Stripping at the front never makes a string longer. *)
Lemma lstrip_length_le (n : nat) : forall s,
  (String.length s <= n)%nat ->
  (String.length (lstrip s) <= String.length s)%nat.
Proof.
  induction n as [|n IH]; intros s Hn.
  { destruct s; simpl in *; [done|lia]. }
  destruct s as [|a s1]; [done|]. rewrite lstrip_cons. simpl in Hn.
  destruct (is_space1 a).
  { specialize (IH s1 ltac:(lia)). simpl. lia. }
  destruct s1 as [|b s2]; [done|]. simpl in Hn.
  destruct (is_space2 a b).
  { specialize (IH s2 ltac:(lia)). simpl. lia. }
  destruct s2 as [|c s3]; [done|]. simpl in Hn.
  destruct (is_space3 a b c); [|done].
  specialize (IH s3 ltac:(lia)). simpl. lia.
Qed.

Lemma lstrip_length (s : string) :
  (String.length (lstrip s) <= String.length s)%nat.
Proof. by apply (lstrip_length_le (String.length s)). Qed.

(** What is left after stripping the front has nothing to strip there. *)
Lemma lstrip_idem_le (n : nat) : forall s,
  (String.length s <= n)%nat -> lstrip (lstrip s) = lstrip s.
Proof.
  induction n as [|n IH]; intros s Hn.
  { destruct s; simpl in *; [done|lia]. }
  destruct s as [|a s1]; [done|]. rewrite (lstrip_cons a s1). simpl in Hn.
  destruct (is_space1 a) eqn:Ha; [apply IH; lia|].
  destruct s1 as [|b s2]; [by rewrite lstrip_cons, Ha|]. simpl in Hn.
  destruct (is_space2 a b) eqn:Hab; [apply IH; lia|].
  destruct s2 as [|c s3]; [by rewrite lstrip_cons, Ha, Hab|]. simpl in Hn.
  destruct (is_space3 a b c) eqn:Habc; [apply IH; lia|].
  by rewrite lstrip_cons, Ha, Hab, Habc.
Qed.

Lemma lstrip_idem (s : string) : lstrip (lstrip s) = lstrip s.
Proof. by apply (lstrip_idem_le (String.length s)). Qed.

(** A string with nothing to strip at the front keeps that when it is
    cut at the back. *)
Lemma lstrip_prefix_fixed (u w : string) :
  lstrip (u +:+ w) = u +:+ w -> lstrip u = u.
Proof.
  intros Hfix.
  assert (forall x y : string,
             (String.length x < String.length y)%nat -> lstrip x <> y) as Hlen.
  { intros x y Hxy Heq. pose proof (lstrip_length x). rewrite Heq in *. lia. }
  destruct u as [|a u1]; [done|].
  change (String a u1 +:+ w) with (String a (u1 +:+ w)) in Hfix.
  rewrite lstrip_cons in Hfix. rewrite lstrip_cons.
  destruct (is_space1 a); [by apply Hlen in Hfix; [|simpl; lia]|].
  destruct u1 as [|b u2]; [done|].
  change (String b u2 +:+ w) with (String b (u2 +:+ w)) in Hfix.
  cbv iota in Hfix |- *.
  destruct (is_space2 a b); [by apply Hlen in Hfix; [|simpl; lia]|].
  destruct u2 as [|c u3]; [done|].
  change (String c u3 +:+ w) with (String c (u3 +:+ w)) in Hfix.
  cbv iota in Hfix |- *.
  destruct (is_space3 a b c); [by apply Hlen in Hfix; [|simpl; lia]|].
  done.
Qed.

(** The scan from the back leaves a suffix of the reversed bytes, with
    nothing more to strip. *)
Lemma lstrip_rev_suffix_le (n : nat) : forall l,
  (length l <= n)%nat -> exists w, l = w ++ lstrip_rev l.
Proof.
  induction n as [|n IH]; intros l Hn.
  { destruct l; simpl in *; [by exists []|lia]. }
  destruct l as [|a l1]; [by exists []|]. rewrite lstrip_rev_cons. simpl in Hn.
  destruct (is_space1 a).
  { destruct (IH l1 ltac:(lia)) as [w Hw]. exists (a :: w). simpl. by f_equal. }
  destruct l1 as [|b l2]; [by exists []|]. simpl in Hn.
  destruct (is_space2 b a).
  { destruct (IH l2 ltac:(lia)) as [w Hw]. exists (a :: b :: w). simpl.
    by do 2 f_equal. }
  destruct l2 as [|c l3]; [by exists []|]. simpl in Hn.
  destruct (is_space3 c b a); [|by exists []].
  destruct (IH l3 ltac:(lia)) as [w Hw]. exists (a :: b :: c :: w). simpl.
  by do 3 f_equal.
Qed.

Lemma lstrip_rev_idem_le (n : nat) : forall l,
  (length l <= n)%nat -> lstrip_rev (lstrip_rev l) = lstrip_rev l.
Proof.
  induction n as [|n IH]; intros l Hn.
  { destruct l; simpl in *; [done|lia]. }
  destruct l as [|a l1]; [done|]. rewrite (lstrip_rev_cons a l1). simpl in Hn.
  destruct (is_space1 a) eqn:Ha; [apply IH; lia|].
  destruct l1 as [|b l2]; [by rewrite lstrip_rev_cons, Ha|]. simpl in Hn.
  destruct (is_space2 b a) eqn:Hab; [apply IH; lia|].
  destruct l2 as [|c l3]; [by rewrite lstrip_rev_cons, Ha, Hab|]. simpl in Hn.
  destruct (is_space3 c b a) eqn:Habc; [apply IH; lia|].
  by rewrite lstrip_rev_cons, Ha, Hab, Habc.
Qed.

Lemma string_of_list_ascii_app (l1 l2 : list ascii) :
  String.string_of_list_ascii (l1 ++ l2)
  = String.string_of_list_ascii l1 +:+ String.string_of_list_ascii l2.
Proof. induction l1 as [|a l1 IH]; simpl; [done|]. by rewrite IH. Qed.

Lemma rstrip_idem (s : string) : rstrip (rstrip s) = rstrip s.
Proof.
  unfold rstrip. rewrite String.list_ascii_of_string_of_list_ascii.
  rewrite rev_involutive.
  by rewrite (lstrip_rev_idem_le _ _ (le_n _)).
Qed.

Lemma rstrip_prefix (s : string) : exists w, s = rstrip s +:+ w.
Proof.
  unfold rstrip.
  destruct (lstrip_rev_suffix_le _ (rev (String.list_ascii_of_string s)) (le_n _))
    as [w Hw].
  exists (String.string_of_list_ascii (rev w)).
  rewrite <- string_of_list_ascii_app, <- rev_app_distr, <- Hw.
  by rewrite rev_involutive, String.string_of_list_ascii_of_string.
Qed.

(** [strip] is idempotent. *)
Lemma strip_idem (s : string) : strip (strip s) = strip s.
Proof.
  unfold strip.
  assert (lstrip (rstrip (lstrip s)) = rstrip (lstrip s)) as ->.
  { destruct (rstrip_prefix (lstrip s)) as [w Hw].
    apply (lstrip_prefix_fixed _ w). rewrite <- Hw. apply lstrip_idem. }
  apply rstrip_idem.
Qed.

End Strip.

(** ** More on single cards *)

(** X5. The texts of a record carry no white space around them: [title],
    [original_title], [year], [country] and [rating] are left unchanged
    by a further [strip()]. *)
Theorem text_fields_stripped (card : Card) (f : Film) :
  _parse_film_card card = Some f ->
  PyStr.strip (title f) = title f
  /\ PyStr.strip (original_title f) = original_title f
  /\ PyStr.strip (year f) = year f
  /\ PyStr.strip (country f) = country f
  /\ PyStr.strip (rating f) = rating f.
Proof.
  intros Hparse.
  apply parse_Some in Hparse
    as (t & ot & details & r & u & h & _ & _ & _ & _ & _ & _ & ->).
  simpl. repeat split.
  - apply strip_idem.
  - destruct ot; [apply strip_idem | done].
  - destruct (details !! 1%nat); [apply strip_idem | done].
  - destruct (details !! 0%nat); [apply strip_idem | done].
  - destruct r; [apply strip_idem | by vm_compute].
Qed.

(** X6. When the three queries for the optional elements raise nothing
    (original title, detail links, rating), a card yields a record
    exactly when it has a title element and a link element with an
    [href]; nothing else in the card is required. *)
Theorem record_iff_required (card : Card) :
  (exists ot, select_one card original_title_selector = Ok ot) ->
  (exists details, select card details_selector = Ok details) ->
  (exists r, select_one card rating_selector = Ok r) ->
  is_Some (_parse_film_card card)
  <-> exists t u h,
        select_one card title_selector = Ok (Some t)
        /\ select_one card url_selector = Ok (Some u)
        /\ attrs u !! "href" = Some h.
Proof.
  intros [ot Hot] [details Hd] [r Hr]. split.
  - intros [f Hparse].
    apply parse_Some in Hparse
      as (t & _ & _ & _ & u & h & Ht & _ & _ & _ & Hu & Hh & _).
    by exists t, u, h.
  - intros (t & u & h & Ht & Hu & Hh).
    unfold _parse_film_card, _parse_film_card_try.
    rewrite Ht. simpl. rewrite Hot. simpl. rewrite Hd. simpl.
    destruct details as [|d0 [|d1 [|d2 ds]]]; simpl;
      rewrite Hr; simpl; rewrite Hu; simpl;
      rewrite bool_decide_false by congruence;
      unfold py_getitem; rewrite Hh; simpl; eauto.
Qed.

(** X7. The optional elements of a card: without rating element the
    record's [rating] is the marker "Н/Д", which is not the empty string,
    and without original-title element its [original_title] is the empty
    string; with the element, the field is its stripped text. *)
Theorem optional_defaults (card : Card) (f : Film) :
  _parse_film_card card = Some f ->
  (select_one card rating_selector = Ok None ->
     rating f = "Н/Д" /\ rating f <> "")
  /\ (forall e, select_one card rating_selector = Ok (Some e) ->
        rating f = PyStr.strip (text e))
  /\ (select_one card original_title_selector = Ok None ->
        original_title f = "")
  /\ (forall e, select_one card original_title_selector = Ok (Some e) ->
        original_title f = PyStr.strip (text e)).
Proof.
  intros Hparse.
  apply parse_Some in Hparse
    as (t & ot & details & r & u & h & _ & Hot & _ & Hr & _ & _ & ->).
  simpl. split; [|split; [|split]].
  - intros Hnone. by assert (r = None) as -> by congruence.
  - intros e He. by assert (r = Some e) as -> by congruence.
  - intros Hnone. by assert (ot = None) as -> by congruence.
  - intros e He. by assert (ot = Some e) as -> by congruence.
Qed.

(** ** HTTP errors *)

(** X8. A response with a 4xx or 5xx status ends the collection like a
    failed fetch: its body is not read, whatever it holds, and the
    records of the pages before it are returned. *)
Theorem http_error_stops requests_get BeautifulSoup count k (r : Response) :
  1 <= count <= 150 ->
  (forall p, (1 <= p <= k)%nat -> page_cards requests_get BeautifulSoup p <> []) ->
  Z.of_nat (length (films_from requests_get BeautifulSoup 1 k)) < count ->
  requests_get (page_url (S k)) = Ok r ->
  400 <= status_code r < 600 ->
  forall fuel, (k < fuel)%nat ->
    get_top_films requests_get BeautifulSoup fuel count
    = Some (Returned (films_from requests_get BeautifulSoup 1 k),
            page_url <$> seq 1 (S k)).
Proof.
  intros Hcount Hlive Hshort Hresp Hstatus fuel Hfuel.
  assert (page_html requests_get (S k) = Ok None) as Hfail.
  { unfold page_html, _get_page. rewrite Hresp. simpl.
    unfold raise_for_status. by rewrite bool_decide_true. }
  rewrite get_top_films_eq, bool_decide_false by lia.
  rewrite (while_loop_stop _ _ count k); [| |by apply page_cards_failed
                                          |by apply page_raises_failed
                                          |simpl; lia|lia].
  - simpl. by rewrite take_ge by lia.
  - intros i Hi. apply Hlive. lia.
Qed.

(** ** More on the JSON export *)

Lemma film_objs_inj (films1 films2 : list Film) :
  film_objs films1 = film_objs films2 -> films1 = films2.
Proof.
  revert films2. induction films1 as [|f1 films1 IH]; intros [|f2 films2];
    simpl; try done.
  intros [= Ht Ho Hy Hr Hg Hc Hu Hd Hrest]. f_equal; [|by apply IH].
  destruct f1, f2; simpl in *. by subst.
Qed.

(** X9. The JSON export loses nothing: two lists of records that give
    the same document are the same list. *)
Theorem json_export_injective (films1 films2 : list Film) :
  Json.dumps (PList (film_objs films1)) = Json.dumps (PList (film_objs films2)) ->
  films1 = films2.
Proof.
  intros Hdoc. apply (f_equal Json.loads) in Hdoc.
  rewrite !loads_dumps_films in Hdoc.
  injection Hdoc as Hobjs. by apply film_objs_inj.
Qed.

(** ** The entry point *)

Lemma export_to_other (e : export) (filename name : string)
    (fs : gmap string string) :
  name <> filename -> (export_to e filename fs).2 !! name = fs !! name.
Proof.
  intros Hne. destruct e as [content|exc [part|]]; simpl;
    by rewrite ?lookup_insert_ne.
Qed.

(** The three files of a run have different names. *)
Lemma export_names_differ (base : string) :
  base +:+ ".json" <> base +:+ ".csv"
  /\ base +:+ ".json" <> base +:+ ".xlsx"
  /\ base +:+ ".csv" <> base +:+ ".xlsx".
Proof. repeat split; by intros Heq%(inj (String.app base)). Qed.

Section MainRuns.

Variable requests_get : string -> py Response.
Variable BeautifulSoup : string -> string -> py Soup.
Variable refused : string -> option string.
Variable to_csv : list pyobj -> export.
Variable to_excel : list pyobj -> export.

Local Abbreviation collect := (get_top_films requests_get BeautifulSoup).
Local Abbreviation run :=
  (main requests_get BeautifulSoup refused to_csv to_excel).

Implicit Types (count : Z) (films : list Film) (net : list string)
  (fs : gmap string string).

(** A run of the collector that returns had a count within bounds. *)
Lemma returned_in_range fuel count films net :
  collect fuel count = Some (Returned films, net) -> 1 <= count <= 150.
Proof. rewrite get_top_films_eq. case_bool_decide; [done|lia]. Qed.

(** Past the check of the input, the script is the collector followed by
    the three exports. *)
Lemma main_collected fuel count films net fs :
  collect fuel count = Some (Returned films, net) ->
  run fuel (Ok count) fs
  = match films with
    | [] => Some (Completed, net, fs)
    | _ :: _ =>
        let base := base_filename count in
        match save_to_json refused films (base +:+ ".json") fs with
        | (Some exc, fs) => Some (Uncaught exc, net, fs)
        | (None, fs) =>
            match save_to_csv to_csv films (base +:+ ".csv") fs with
            | (Some exc, fs) => Some (Uncaught exc, net, fs)
            | (None, fs) =>
                match save_to_excel to_excel films (base +:+ ".xlsx") fs with
                | (Some exc, fs) => Some (Uncaught exc, net, fs)
                | (None, fs) => Some (Completed, net, fs)
                end
            end
        end
    end.
Proof.
  intros Hrun. pose proof (returned_in_range _ _ _ _ Hrun) as Hrange.
  unfold main. cbn [mbind py_bind].
  rewrite bool_decide_false by lia. by rewrite Hrun.
Qed.

(** The JSON export of records that UTF-8 can encode, to a name that can
    be opened. *)
Lemma save_to_json_written films filename fs :
  refused filename = None ->
  Forall (fun f => encodable f = true) films ->
  save_to_json refused films filename fs
  = (None, <[filename := Json.dumps (PList (film_objs films))]> fs).
Proof.
  intros Hopen Hfilms. unfold save_to_json.
  by rewrite Hopen, write_chunks_films.
Qed.

(** X10. Input that is no integer, or an integer outside [1,150], ends
    the script through [exit()]: no request is sent and no file is
    written. *)
Theorem main_rejects_input fuel (input : py Z) fs :
  input = Exc "ValueError"
  \/ (exists count, input = Ok count /\ (count < 1 \/ count > 150)) ->
  main requests_get BeautifulSoup refused to_csv to_excel fuel input fs
  = Some (Exited, [], fs).
Proof.
  intros [-> | (count & -> & Hout)]; unfold main; cbn [mbind py_bind];
    [done|].
  by rewrite bool_decide_true.
Qed.

(** X11. When the collector comes back without a single record, the
    script ends without writing any file. *)
Theorem main_without_films fuel count net fs :
  get_top_films requests_get BeautifulSoup fuel count
  = Some (Returned [], net) ->
  main requests_get BeautifulSoup refused to_csv to_excel fuel (Ok count) fs
  = Some (Completed, net, fs).
Proof. intros Hrun. by rewrite (main_collected _ _ _ _ _ Hrun). Qed.

(** X12. When the collector returns records that UTF-8 can encode, the
    JSON file can be opened for writing and both pandas writers succeed,
    the script completes and leaves three files named after the count:
    the JSON file reads back as the records, the other two hold what the
    writers wrote, and every other file is as it was. *)
Theorem main_exports fuel count films net fs (csv xlsx : string) :
  get_top_films requests_get BeautifulSoup fuel count
  = Some (Returned films, net) ->
  films <> [] ->
  refused (base_filename count +:+ ".json") = None ->
  Forall (fun f => encodable f = true) films ->
  to_csv (film_objs films) = Wrote csv ->
  to_excel (film_objs films) = Wrote xlsx ->
  exists fs',
    main requests_get BeautifulSoup refused to_csv to_excel fuel (Ok count) fs
    = Some (Completed, net, fs')
    /\ json_load fs' (base_filename count +:+ ".json")
       = Ok (PList (film_objs films))
    /\ fs' !! (base_filename count +:+ ".csv") = Some csv
    /\ fs' !! (base_filename count +:+ ".xlsx") = Some xlsx
    /\ forall name,
         name <> base_filename count +:+ ".json" ->
         name <> base_filename count +:+ ".csv" ->
         name <> base_filename count +:+ ".xlsx" ->
         fs' !! name = fs !! name.
Proof.
  intros Hrun Hfilms Hopen Henc Hcsv Hxlsx.
  destruct (export_names_differ (base_filename count)) as (Hjc & Hjx & Hcx).
  rewrite (main_collected _ _ _ _ _ Hrun).
  destruct films as [|f films]; [done|].
  cbv zeta. rewrite save_to_json_written by done.
  unfold save_to_csv, save_to_excel. rewrite Hcsv, Hxlsx. simpl.
  eexists. split; [done|]. unfold json_load.
  split; [|split; [|split]].
  - rewrite !lookup_insert_ne, lookup_insert_eq by done.
    apply (loads_dumps_films (f :: films)).
  - by rewrite lookup_insert_ne, lookup_insert_eq.
  - by rewrite lookup_insert_eq.
  - intros name Hj Hc Hx. by rewrite !lookup_insert_ne.
Qed.

(** X13. The JSON file is written first: once the collector has returned
    records that UTF-8 can encode and the JSON file could be opened for
    writing, the script leaves a JSON file that reads back as these
    records, whatever the two pandas writers do afterwards, also when
    one of them raises. *)
Theorem main_json_kept fuel count films net fs :
  get_top_films requests_get BeautifulSoup fuel count
  = Some (Returned films, net) ->
  films <> [] ->
  refused (base_filename count +:+ ".json") = None ->
  Forall (fun f => encodable f = true) films ->
  exists how fs',
    main requests_get BeautifulSoup refused to_csv to_excel fuel (Ok count) fs
    = Some (how, net, fs')
    /\ json_load fs' (base_filename count +:+ ".json")
       = Ok (PList (film_objs films)).
Proof.
  intros Hrun Hfilms Hopen Henc.
  destruct (export_names_differ (base_filename count)) as (Hjc & Hjx & Hcx).
  rewrite (main_collected _ _ _ _ _ Hrun).
  destruct films as [|f films]; [done|].
  cbv zeta. rewrite save_to_json_written by done.
  unfold save_to_csv, save_to_excel.
  assert (forall fs1 : gmap string string,
             fs1 !! (base_filename count +:+ ".json")
             = Some (Json.dumps (PList (film_objs (f :: films)))) ->
             json_load fs1 (base_filename count +:+ ".json")
             = Ok (PList (film_objs (f :: films)))) as Hload.
  { intros fs1 Hfs1. unfold json_load. rewrite Hfs1. apply loads_dumps_films. }
  destruct (to_csv _) as [c|e [part|]]; simpl;
    try (eexists _, _; split; [done|]; apply Hload;
         by rewrite ?lookup_insert_ne, lookup_insert_eq by done).
  destruct (to_excel _) as [x|e [part|]]; simpl;
    eexists _, _; (split; [done|]); apply Hload;
    by rewrite ?lookup_insert_ne, lookup_insert_eq by done.
Qed.

(** X15. When the collector has returned records and the JSON file
    cannot be opened for writing, the exception of [open] ends the
    script: no file is written, and the two pandas writers never run. *)
Theorem main_open_refused fuel count films net fs (exc : string) :
  get_top_films requests_get BeautifulSoup fuel count
  = Some (Returned films, net) ->
  films <> [] ->
  refused (base_filename count +:+ ".json") = Some exc ->
  main requests_get BeautifulSoup refused to_csv to_excel fuel (Ok count) fs
  = Some (Uncaught exc, net, fs).
Proof.
  intros Hrun Hfilms Hopen.
  rewrite (main_collected _ _ _ _ _ Hrun).
  destruct films as [|f films]; [done|].
  cbv zeta. unfold save_to_json. by rewrite Hopen.
Qed.

(** X16. An exception that leaves the collector ends the script: when
    pages 1..k come with cards, hold fewer records than asked for, and
    an exception is raised at page k+1 (by [requests.get], if it is no
    [RequestException], or by the parser), [get_top_films] raises it,
    the records of pages 1..k are lost, and the script ends with that
    exception and without a file written. *)
Theorem exception_leaves_collector fuel count k (e : string) fs :
  1 <= count <= 150 ->
  (forall p, (1 <= p <= k)%nat ->
     page_cards requests_get BeautifulSoup p <> []) ->
  Z.of_nat (length (films_from requests_get BeautifulSoup 1 k)) < count ->
  page_raises requests_get BeautifulSoup (S k) = Some e ->
  (k < fuel)%nat ->
  get_top_films requests_get BeautifulSoup fuel count
  = Some (Raised e "", page_url <$> seq 1 (S k))
  /\ main requests_get BeautifulSoup refused to_csv to_excel fuel (Ok count) fs
     = Some (Uncaught e, page_url <$> seq 1 (S k), fs).
Proof.
  intros Hcount Hlive Hshort Hraise Hfuel.
  assert (get_top_films requests_get BeautifulSoup fuel count
          = Some (Raised e "", page_url <$> seq 1 (S k))) as Hrun.
  { rewrite get_top_films_eq, bool_decide_false by lia.
    rewrite (while_loop_raise _ _ count k e); [done| |done|simpl; lia|lia].
    intros i Hi. apply Hlive. lia. }
  split; [done|].
  unfold main. cbn [mbind py_bind].
  rewrite bool_decide_false by lia. by rewrite Hrun.
Qed.

(** X17. A record that UTF-8 cannot encode stops the script at the
    first export: when the collector has returned records of which one
    holds a lone surrogate and the JSON file could be opened, the write
    raises [UnicodeEncodeError], which ends the script; the two pandas
    writers never run, so every file but the JSON file is as it was. *)
Theorem main_json_raises fuel count films net fs :
  get_top_films requests_get BeautifulSoup fuel count
  = Some (Returned films, net) ->
  refused (base_filename count +:+ ".json") = None ->
  Exists (fun f => encodable f = false) films ->
  exists fs',
    main requests_get BeautifulSoup refused to_csv to_excel fuel (Ok count) fs
    = Some (Uncaught "UnicodeEncodeError", net, fs')
    /\ forall name,
         name <> base_filename count +:+ ".json" -> fs' !! name = fs !! name.
Proof.
  intros Hrun Hopen Hfilms.
  rewrite (main_collected _ _ _ _ _ Hrun).
  pose proof (write_chunks_dirty _ "" (films_chunks_dirty _ Hfilms)) as Hw.
  destruct films as [|f films]; [by apply Exists_nil in Hfilms|].
  cbv zeta. unfold save_to_json. rewrite Hopen.
  destruct (write_chunks _ _) as [exc written]. simpl in Hw. subst exc.
  eexists. split; [done|].
  intros name Hname. by rewrite lookup_insert_ne.
Qed.

End MainRuns.

(** ** The further properties on sample inputs *)

Import MainExamples.

Lemma returned_run_witness :
  exists j, (1 <= j <= 3)%nat
    /\ ["https://kino.mail.ru/cinema/top/";
        "https://kino.mail.ru/cinema/top/?page=2"] = page_url <$> seq 1 j
    /\ [brat2_film; leon_film; alien_film]
       = take 3 (films_from (site_get two_pages) (site_soup two_pages) 1 j).
Proof.
  destruct (returned_run (site_get two_pages) (site_soup two_pages) 3 3
              [brat2_film; leon_film; alien_film]
              [page_url 1; page_url 2])
    as (j & Hj & Hnet & Hfilms & _); [by vm_compute|].
  exists j. split; [done|]. split; [done|]. exact Hfilms.
Defined.

Lemma returned_requests_witness :
  head [page_url 1; page_url 2] = Some "https://kino.mail.ru/cinema/top/"
  /\ (1 <= length [page_url 1; page_url 2] <= 3)%nat
  /\ NoDup [page_url 1; page_url 2].
Proof.
  apply (returned_requests (site_get two_pages) (site_soup two_pages) 3 3
           [brat2_film; leon_film; alien_film]).
  by vm_compute.
Defined.

Lemma short_result_means_stop_witness :
  page_cards (site_get failing_second) (site_soup failing_second) 2 = [].
Proof.
  apply (short_result_means_stop (site_get failing_second)
           (site_soup failing_second) 5 5 [brat2_film; leon_film]
           [page_url 1; page_url 2]).
  - by vm_compute.
  - simpl. lia.
Defined.

Lemma fewer_is_prefix_witness :
  [brat2_film] = take 1 [brat2_film; leon_film; alien_film]
  /\ [page_url 1] `prefix_of` [page_url 1; page_url 2].
Proof.
  apply (fewer_is_prefix (site_get two_pages) (site_soup two_pages) 3 3 1 3).
  - lia.
  - by vm_compute.
  - by vm_compute.
Defined.

Lemma text_fields_stripped_witness :
  PyStr.strip (title brat2_film) = title brat2_film
  /\ PyStr.strip (original_title brat2_film) = original_title brat2_film
  /\ PyStr.strip (year brat2_film) = year brat2_film
  /\ PyStr.strip (country brat2_film) = country brat2_film
  /\ PyStr.strip (rating brat2_film) = rating brat2_film.
Proof. apply (text_fields_stripped brat2). by vm_compute. Defined.

Lemma record_iff_required_witness :
  exists t u h,
    select_one brat2 title_selector = Ok (Some t)
    /\ select_one brat2 url_selector = Ok (Some u)
    /\ attrs u !! "href" = Some h.
Proof.
  apply (record_iff_required brat2).
  - eexists. reflexivity.
  - eexists. reflexivity.
  - eexists. reflexivity.
  - exists brat2_film. by vm_compute.
Defined.

Lemma optional_defaults_witness :
  rating leon_film = "Н/Д" /\ original_title leon_film = "".
Proof.
  destruct (optional_defaults leon leon_film) as (Hr & _ & Ho & _);
    [by vm_compute|].
  split; [apply Hr | apply Ho]; reflexivity.
Defined.

Lemma http_error_stops_witness :
  get_top_films (site_get error_second) (site_soup error_second) 5 5
  = Some (Returned [brat2_film; leon_film], [page_url 1; page_url 2]).
Proof.
  apply (http_error_stops (site_get error_second) (site_soup error_second)
           5 1 (mkResponse 503 "<html>error</html>")).
  - lia.
  - intros p Hp. assert (p = 1)%nat as -> by lia. by vm_compute.
  - vm_compute. reflexivity.
  - by vm_compute.
  - simpl. lia.
  - lia.
Defined.

Lemma json_export_injective_witness : [leon_film] = [leon_film].
Proof. apply (json_export_injective [leon_film] [leon_film]). reflexivity. Defined.

Lemma main_rejects_input_witness :
  main (site_get two_pages) (site_soup two_pages) no_refusal csv_lines
    xlsx_bytes 5 (Ok 151) some_files
  = Some (Exited, [], some_files)
  /\ main (site_get two_pages) (site_soup two_pages) no_refusal csv_lines
       xlsx_bytes 5 (Exc "ValueError") some_files
     = Some (Exited, [], some_files).
Proof.
  split; apply main_rejects_input.
  - right. exists 151. split; [reflexivity | lia].
  - left. reflexivity.
Defined.

Lemma main_without_films_witness :
  main (site_get []) (site_soup []) no_refusal csv_lines xlsx_bytes 5 (Ok 3)
    some_files
  = Some (Completed, [page_url 1], some_files).
Proof. apply main_without_films. by vm_compute. Defined.

Lemma sample_films_encodable :
  Forall (fun f => encodable f = true) [brat2_film; leon_film; alien_film].
Proof. repeat constructor. Defined.

Lemma main_exports_witness :
  exists fs',
    main (site_get two_pages) (site_soup two_pages) no_refusal csv_lines
      xlsx_bytes 3 (Ok 3) some_files
    = Some (Completed, [page_url 1; page_url 2], fs')
    /\ json_load fs' "kino_mail_top_3_films.json"
       = Ok (PList (film_objs [brat2_film; leon_film; alien_film]))
    /\ fs' !! "kino_mail_top_3_films.xlsx" = Some "PK"
    /\ fs' !! "notes.txt" = Some "keep".
Proof.
  destruct (main_exports (site_get two_pages) (site_soup two_pages)
              no_refusal csv_lines xlsx_bytes 3 3
              [brat2_film; leon_film; alien_film]
              [page_url 1; page_url 2] some_files
              (Json.encode_items (fun _ => "row") (String Json.newline "")
                 (film_objs [brat2_film; leon_film; alien_film]))
              "PK")
    as (fs' & Hrun & Hjson & _ & Hxlsx & Hother);
    [by vm_compute | done | reflexivity | exact sample_films_encodable
    | reflexivity | reflexivity |].
  exists fs'. split; [exact Hrun|]. split; [exact Hjson|].
  split; [exact Hxlsx|].
  rewrite Hother; [reflexivity | by vm_compute..].
Defined.

Lemma main_json_kept_witness :
  exists how fs',
    main (site_get two_pages) (site_soup two_pages) no_refusal csv_lines
      xlsx_missing 3 (Ok 3) some_files
    = Some (how, [page_url 1; page_url 2], fs')
    /\ json_load fs' "kino_mail_top_3_films.json"
       = Ok (PList (film_objs [brat2_film; leon_film; alien_film])).
Proof.
  apply (main_json_kept (site_get two_pages) (site_soup two_pages)
           no_refusal csv_lines xlsx_missing 3 3
           [brat2_film; leon_film; alien_film]
           [page_url 1; page_url 2] some_files).
  - by vm_compute.
  - done.
  - reflexivity.
  - exact sample_films_encodable.
Defined.

Lemma main_open_refused_witness :
  main (site_get two_pages) (site_soup two_pages) json_is_directory csv_lines
    xlsx_bytes 3 (Ok 3) some_files
  = Some (Uncaught "IsADirectoryError", [page_url 1; page_url 2], some_files).
Proof.
  apply (main_open_refused (site_get two_pages) (site_soup two_pages)
           json_is_directory csv_lines xlsx_bytes 3 3
           [brat2_film; leon_film; alien_film]).
  - by vm_compute.
  - done.
  - reflexivity.
Defined.

Lemma exception_leaves_collector_witness :
  get_top_films crashing_get (site_soup two_pages) 5 5
  = Some (Raised "AttributeError" "", page_url <$> seq 1 2)
  /\ main crashing_get (site_soup two_pages) no_refusal csv_lines xlsx_bytes
       5 (Ok 5) some_files
     = Some (Uncaught "AttributeError", page_url <$> seq 1 2, some_files).
Proof.
  apply (exception_leaves_collector crashing_get (site_soup two_pages)
           no_refusal csv_lines xlsx_bytes 5 5 1 "AttributeError" some_files).
  - lia.
  - intros p Hp. assert (p = 1)%nat as -> by lia. by vm_compute.
  - by vm_compute.
  - reflexivity.
  - lia.
Defined.

Lemma main_json_raises_witness :
  exists fs',
    main (site_get surrogate_site) (site_soup surrogate_site) no_refusal
      csv_lines xlsx_bytes 3 (Ok 2) some_files
    = Some (Uncaught "UnicodeEncodeError", [page_url 1], fs')
    /\ fs' !! "notes.txt" = Some "keep"
    /\ fs' !! "kino_mail_top_2_films.csv" = None.
Proof.
  destruct (main_json_raises (site_get surrogate_site)
              (site_soup surrogate_site) no_refusal csv_lines xlsx_bytes
              3 2 [brat2_film; surrogate_film] [page_url 1]
              some_files)
    as (fs' & Hrun & Hother).
  - by vm_compute.
  - reflexivity.
  - apply Exists_cons_tl, Exists_cons_hd. reflexivity.
  - exists fs'. split; [exact Hrun|].
    split; (rewrite Hother; [reflexivity | by vm_compute]).
Defined.

(** ** The JSON round trip on sample records *)

(** C8, the claim as it stands, fails on a record whose title is a lone
    surrogate: the write raises [UnicodeEncodeError] at the title, and
    the file it leaves behind ends before the title, so reading it back
    raises [JSONDecodeError] (Expecting value). *)
Lemma surrogate_not_saved :
  (save_to_json no_refusal [surrogate_film] "films.json" some_files).1
  = Some "UnicodeEncodeError"
  /\ json_load
       (save_to_json no_refusal [surrogate_film] "films.json" some_files).2
       "films.json"
     = Exc "Expecting value"
  /\ (save_to_json no_refusal [surrogate_film] "films.json" some_files).2
     !! "films.json"
     = Some ("[" +:+ Json.newline_indent 1 +:+ "{" +:+ Json.newline_indent 2
             +:+ Json.encode_basestring "title" +:+ Json.key_separator).
Proof. split; [|split]; by vm_compute. Qed.

Lemma json_round_trip_witness :
  exists fs',
    save_to_json no_refusal [brat2_film; leon_film] "films.json" some_files
    = (None, fs')
    /\ json_load fs' "films.json"
       = Ok (PList
               [PDict [("title", PStr "Брат 2");
                       ("original_title", PStr "Brat 2");
                       ("year", PStr "2000");
                       ("rating", PStr "8.1");
                       ("genres", PStr "боевик, драма");
                       ("country", PStr "Россия");
                       ("url", PStr "https://kino.mail.ru/cinema/movies/brat2/");
                       ("director", PStr "")];
                PDict [("title", PStr "Леон");
                       ("original_title", PStr "");
                       ("year", PStr "1994");
                       ("rating", PStr "Н/Д");
                       ("genres", PStr "");
                       ("country", PStr "Франция");
                       ("url", PStr "https://kino.mail.ru/cinema/movies/leon/");
                       ("director", PStr "")]]).
Proof.
  destruct (json_round_trip no_refusal [brat2_film; leon_film] "films.json"
              some_files)
    as (fs' & Hsave & Hload & _).
  - reflexivity.
  - repeat constructor.
  - exists fs'. split; [exact Hsave | exact Hload].
Defined.
